(** * A/B testing of endpoint variants and experiment training: a
    shallow embedding of the notebooks' code.

    Sources:
    - [Lab3-SageMaker-Shadow-Deployment/(Optional)task2_ab_testing_with_variant.ipynb]
      (variant declaration, evaluation of each variant, traffic shifting,
      endpoint deletion);
    - [Lab2-SageMaker-Experiments/notebook_mode/pytorch_experiment_notebook.ipynb]
      ([Net], [log_performance], [train_model] and its call site,
      [analyze_experiment]);
    - [Lab2-SageMaker-Experiments/script_mode/pytorch_script_mode_training_job.ipynb]
      (the sweep of training jobs, [analyze_experiment]).

    Python dictionaries used as mappings are [gmap string _]; exceptions
    are modelled by the name of their class; floats computed by the
    evaluation cells are IEEE 754 binary64 numbers. The behaviour of
    pandas and numpy is that of the 1.x versions of the notebook's
    Python 3.8 kernel. *)

From Stdlib Require Import ZArith QArith Lia List.
From Stdlib Require Import Ascii Decimal DecimalString DecimalZ.
From Stdlib Require Import Floats.SpecFloat.
From stdpp Require Import base option list strings gmap fin_maps.
Import ListNotations.

Set Warnings "-register-all".
Local Open Scope string_scope.
Local Open Scope Z_scope.

(** ** Python control flow: a value or a raised exception *)

Module Py.

(** The outcome of evaluating a Python expression or statement block:
    a value, or an exception identified by its class name. *)
Inductive result (A : Type) : Type :=
| Ok (a : A)
| Raise (cls : string).
Arguments Ok {A} a.
Arguments Raise {A} cls.

Definition bind {A B} (r : result A) (k : A -> result B) : result B :=
  match r with
  | Ok a => k a
  | Raise cls => Raise cls
  end.

(** [l[0]] on a Python list. *)
Definition getitem0 {A} (l : list A) : result A :=
  match l with
  | [] => Raise "IndexError"
  | x :: _ => Ok x
  end.

End Py.

Export Py.

Declare Scope py_scope.
Delimit Scope py_scope with py.
Notation "x <- c1 ;; c2" := (Py.bind c1 (fun x => c2))
  (at level 100, c1 at next level, right associativity) : py_scope.
Local Open Scope py_scope.

(** ** Floating-point quotients *)

(** A Python [float] or numpy [float64]: an IEEE 754 binary64 number. *)
Definition float64 : Type := spec_float.

(** The conversion of an integer, rounded to the nearest float. *)
Definition float64_of_int (z : Z) : float64 := binary_normalize 53 1024 z 0 false.

Definition float64_div (x y : float64) : float64 := SFdiv 53 1024 x y.

(** The quotient of two integers as floats. *)
Definition quotient (a b : Z) : float64 :=
  float64_div (float64_of_int a) (float64_of_int b).

(** ** JSON documents and dataframe cells *)

(** A scalar JSON value as [json.loads] returns it: [None], a [bool], a
    number (kept as the exact rational value of the Python number) or a
    string. Strings stand for labels and the like; a column of strings
    that pandas would read as ISO 8601 dates, and store as timestamps,
    is not meant. *)
Inductive scalar : Type :=
| SNull
| SBool (b : bool)
| SNum (q : Q)
| SStr (s : string).

(** A JSON object whose values are scalars. It lists each key once, as
    a Python [dict] does. *)
Definition record : Type := list (string * scalar).

(** An element of a decoded array: a scalar, an object, or an array of
    objects. *)
Inductive item : Type :=
| IScalar (v : scalar)
| IObject (fields : record)
| IArray (objects : list record).

(** What [json.loads] returns for a response body: a scalar, an object
    or an array. The first variant answers an array of objects
    ([[{"label": ..., "score": ...}]]), the second an array of arrays of
    objects (for each input, one object per label). Objects hold
    scalars, and an array inside an array holds objects: documents
    nested otherwise are not represented. *)
Inductive json : Type :=
| JScalar (v : scalar)
| JObject (fields : record)
| JArray (items : list item).

(** A cell of a dataframe column or an element of the numpy array made
    from it. A [bool] is kept as the number it equals. *)
Inductive cell : Type :=
| CStr (s : string)
| CNum (q : Q)
| CNone
| CNaN.

(** Python [==] on two cells, which numpy applies element by element.
    [NaN] equals nothing, itself included. *)
Definition cell_eqb (a b : cell) : bool :=
  match a, b with
  | CStr s, CStr t => String.eqb s t
  | CNum p, CNum q => Qeq_bool p q
  | CNone, CNone => true
  | _, _ => false
  end.

(** [pandas.isnull] on a cell. *)
Definition isnull (c : cell) : bool :=
  match c with
  | CNone | CNaN => true
  | CStr _ | CNum _ => false
  end.

(** [series == value] in pandas, on one cell of the series: a null cell
    equals nothing and nothing equals a null value; other cells are
    compared with Python's [==]. *)
Definition pd_eq (a b : cell) : bool :=
  negb (isnull a) && negb (isnull b) && cell_eqb a b.

(** Python [a > b]: numbers with numbers, strings with strings (code point
    order); [NaN] compares false with every number; anything else is a
    [TypeError]. *)
Definition cell_gt (a b : cell) : result bool :=
  match a, b with
  | CNum p, CNum q => Ok (negb (Qle_bool p q))
  | CStr s, CStr t => Ok (String.ltb t s)
  | CNaN, CNum _ | CNum _, CNaN | CNaN, CNaN => Ok false
  | _, _ => Raise "TypeError"
  end.

(** The builtin [max] over a sequence: the first maximal element. *)
Fixpoint max_from (m : cell) (xs : list cell) : result cell :=
  match xs with
  | [] => Ok m
  | x :: xs' =>
      gt <- cell_gt x m ;;
      max_from (if gt : bool then x else m) xs'
  end.

Definition py_max (xs : list cell) : result cell :=
  match xs with
  | [] => Raise "ValueError"
  | x :: xs' => max_from x xs'
  end.

(** How pandas stores the values it is given for one column. Strings and
    bools keep the column a column of Python objects, where [None] stays
    [None]. Without them, a number or a missing value ([NaN]) makes it a
    column of floats, where [None] becomes [NaN]. A column of [None]
    only is a column of objects. *)
Inductive storage : Type := AsObjects | AsFloats.

Definition keeps_objects (v : option scalar) : bool :=
  match v with
  | Some (SStr _) | Some (SBool _) => true
  | _ => false
  end.

Definition is_float (v : option scalar) : bool :=
  match v with
  | Some (SNum _) | None => true
  | _ => false
  end.

(** The storage of a column from its values, a key that is missing from
    a dict being [None] here. *)
Definition inferred (values : list (option scalar)) : storage :=
  if existsb keeps_objects values then AsObjects
  else if existsb is_float values then AsFloats
  else AsObjects.

Definition cell_of (st : storage) (v : option scalar) : cell :=
  match v with
  | None => CNaN
  | Some SNull => match st with AsObjects => CNone | AsFloats => CNaN end
  | Some (SBool b) => CNum (inject_Z (Z.b2z b))
  | Some (SNum q) => CNum q
  | Some (SStr s) => CStr s
  end.

(** A row of a dataframe with the columns [label] and [score]. *)
Record row : Type := mk_row { label : cell; score : cell }.

Fixpoint lookup_field (k : string) (fields : record) : option scalar :=
  match fields with
  | [] => None
  | (k', v) :: rest => if String.eqb k k' then Some v else lookup_field k rest
  end.

Definition has_key (k : string) (fields : record) : bool :=
  match lookup_field k fields with Some _ => true | None => false end.

(** The values of column [k] in the frame made from a list of dicts. *)
Definition column_values (k : string) (records : list record)
    : list (option scalar) :=
  map (lookup_field k) records.

(** [tmp_df[tmp_df['score'] == max(tmp_df['score'])]] *)
Definition select_max_score (tmp_df : list row) : result (list row) :=
  m <- py_max (map score tmp_df) ;;
  Ok (List.filter (fun r => pd_eq (score r) m) tmp_df).

(** ** Evaluation of a variant (Step 3 of the A/B notebook) *)

(** A response body returned by [utils.invoke_with_single_sentence]. The
    cells below only ever pass a body to [json.loads], so a body is
    represented by the outcome of that call: the decoded document, or
    [JSONDecodeError]. *)
Record response : Type := Body { json_loads : result json }.

Definition text_of (j : json) : response := Body (Ok j).
Definition malformed : response := Body (Raise "JSONDecodeError").

(** [x[0]] on a decoded document: the first element of an array, the
    first character of a string; a dict has no key 0, and the other
    scalars cannot be subscripted. *)
Definition json_getitem0 (j : json) : result item :=
  match j with
  | JArray items => getitem0 items
  | JObject _ => Raise "KeyError"
  | JScalar (SStr s) =>
      match s with
      | EmptyString => Raise "IndexError"
      | String c _ => Ok (IScalar (SStr (String c EmptyString)))
      end
  | JScalar _ => Raise "TypeError"
  end.

(** The one row that [from_dict(d, orient='index').transpose()] makes of
    a dict of scalars: the values of the dict make one column, stored as
    pandas infers it, which the transposition turns into a row. A key
    [label] that is missing leaves the cell of the appended row empty
    ([NaN]). *)
Definition row_of_fields (fields : record) : row :=
  let st := inferred (map (fun kv => Some kv.2) fields) in
  mk_row (cell_of st (lookup_field "label" fields))
         (cell_of st (lookup_field "score" fields)).

(** [pd.DataFrame.from_dict(d, orient='index').transpose()] followed by
    the column access [tmp_df['score']]. [from_dict] starts with
    [len(data)], which raises for a scalar that is no string, and goes
    on to [data.values()] when the length is not 0, which raises for a
    list and for a string. What has length 0 goes to the constructor of
    [DataFrame]: it refuses the empty string; the empty list and the
    empty dict give a frame without columns, as does a dict without a
    key [score], and the column access raises [KeyError]. *)
Definition from_dict_index_transpose (d : item) : result (list row) :=
  match d with
  | IObject fields =>
      if has_key "score" fields
      then Ok [row_of_fields fields]
      else Raise "KeyError"
  | IArray [] => Raise "KeyError"
  | IArray (_ :: _) => Raise "AttributeError"
  | IScalar (SStr EmptyString) => Raise "ValueError"
  | IScalar (SStr (String _ _)) => Raise "AttributeError"
  | IScalar _ => Raise "TypeError"
  end.

Fixpoint traverse {A B} (f : A -> result B) (xs : list A) : result (list B) :=
  match xs with
  | [] => Ok []
  | x :: xs' => y <- f x ;; ys <- traverse f xs' ;; Ok (y :: ys)
  end.

(** [pd.DataFrame(records)] followed by the column access
    [tmp_df['score']]. A list of dicts becomes one row per dict, each
    column stored as pandas infers it from its values, a missing key
    giving [NaN]; the column [score] exists when some dict has the key.
    A dict of scalars is refused for want of an index; an empty dict
    and [None] give an empty frame, without the column; any other
    scalar is refused. *)
Definition frame_of_records (records : item) : result (list row) :=
  match records with
  | IArray objects =>
      if existsb (has_key "score") objects
      then
        let st_label := inferred (column_values "label" objects) in
        let st_score := inferred (column_values "score" objects) in
        Ok (map (fun fields =>
                   mk_row (cell_of st_label (lookup_field "label" fields))
                          (cell_of st_score (lookup_field "score" fields)))
                objects)
      else Raise "KeyError"
  | IObject [] => Raise "KeyError"
  | IObject (_ :: _) => Raise "ValueError"
  | IScalar SNull => Raise "KeyError"
  | IScalar _ => Raise "ValueError"
  end.

(** The right-hand sides of the two loop bodies, as functions of the
    response they parse. *)
Definition new_row_variant1 (body : response) : result (list row) :=
  doc <- json_loads body ;;
  d <- json_getitem0 doc ;;
  tmp_df <- from_dict_index_transpose d ;;
  select_max_score tmp_df.

Definition new_row_variant2 (body : response) : result (list row) :=
  doc <- json_loads body ;;
  records <- json_getitem0 doc ;;
  tmp_df <- frame_of_records records ;;
  select_max_score tmp_df.

(** A [for] loop threading an accumulator; an exception in the body ends
    the loop. *)
Fixpoint for_each {A S} (body : S -> A -> result S) (xs : list A) (s : S) : result S :=
  match xs with
  | [] => Ok s
  | x :: xs' => s' <- body s x ;; for_each body xs' s'
  end.

(** <<
    df = pd.DataFrame(columns=['label','score'], dtype=object)
    for prediction in predictions1:
        tmp_df = ...json.loads(predictions1[0])[0]...
        new_row = tmp_df[tmp_df['score']==max(tmp_df['score'])]
        df = df.append(new_row, ignore_index=True)
    >>
    The loop variable [prediction] is not used by the body, which reads
    [predictions[0]]. *)
Definition loop_body (new_row : response -> result (list row))
    (predictions : list response)
    (df : list row) (prediction : response) : result (list row) :=
  first <- getitem0 predictions ;;
  rows <- new_row first ;;
  Ok (df ++ rows)%list.

Definition build_df (new_row : response -> result (list row))
    (predictions : list response) : result (list row) :=
  for_each (loop_body new_row predictions) predictions [].

(** [df.replace({column: value_map})] on one cell of the column: a cell
    equal to a key is replaced by its value, any other cell is kept. *)
Definition replace_cell (value_map : gmap string Z) (c : cell) : cell :=
  match c with
  | CStr s =>
      match value_map !! s with
      | Some z => CNum (inject_Z z)
      | None => CStr s
      end
  | _ => c
  end.

Definition replace_label (value_map : gmap string Z) (df : list row) : list row :=
  map (fun r => mk_row (replace_cell value_map (label r)) (score r)) df.

(** The [value_map] literals of the notebook. *)
Definition value_map_variant1 : gmap string Z :=
  <["LABEL_0" := 0]> (<["LABEL_1" := 1]> (<["LABEL_2" := 2]> ∅)).

Definition value_map_variant2 : gmap string Z :=
  <["NEGATIVE" := 0]> (<["POSITIVE" := 1]> ∅).

Definition value_map_groundtruth : gmap string Z :=
  <["negative" := 0]> (<["neutral" := 1]> (<["positive" := 2]> ∅)).

(** [preds == labels] on one-dimensional numpy arrays, then the builtin
    [sum]. Arrays of equal length are compared element by element; an
    array of length one is broadcast against the other; for any other
    pair of lengths numpy 1.x answers the scalar [False], on which [sum]
    raises [TypeError]. *)
Definition np_equal (a b : list cell) : result (list bool) :=
  if Nat.eqb (length a) (length b)
  then Ok (map (fun '(x, y) => cell_eqb x y) (combine a b))
  else match a, b with
       | [x], _ => Ok (map (fun y => cell_eqb x y) b)
       | _, [y] => Ok (map (fun x => cell_eqb x y) a)
       | _, _ => Raise "TypeError"
       end.

(** What the builtin [sum] returns for a numpy array of booleans: the
    Python integer 0 it starts from when the array is empty, a numpy
    [int64] otherwise (arrays are far shorter than 2^63). *)
Inductive summed : Type :=
| PyZero
| NpInt64 (k : Z).

Definition count_true (bs : list bool) : Z :=
  fold_left (fun acc (b : bool) => acc + Z.b2z b) bs 0.

Definition py_sum (bs : list bool) : summed :=
  match bs with
  | [] => PyZero
  | _ :: _ => NpInt64 (count_true bs)
  end.

(** [s / n] for such a sum and a Python integer [n]. Python divides its
    own integers and raises on a zero divisor; numpy converts both
    operands to [float64] and divides them as floats, a zero divisor
    included. *)
Definition true_divide (s : summed) (n : Z) : result float64 :=
  match s with
  | PyZero =>
      if Z.eqb n 0 then Raise "ZeroDivisionError" else Ok (quotient 0 n)
  | NpInt64 k => Ok (quotient k n)
  end.

(** [accuracy = sum(preds == labels) / len(labels)] *)
Definition accuracy (preds labels : list cell) : result float64 :=
  hits <- np_equal preds labels ;;
  true_divide (py_sum hits) (Z.of_nat (length labels)).

(** The label column of the ground-truth file after its [replace]:
    [labels = df_with_labels.replace({'sentiment': value_map}).iloc[:, 1].to_numpy()],
    the second column of the file being [sentiment]. *)
Definition groundtruth_labels (sentiment : list cell) : list cell :=
  map (replace_cell value_map_groundtruth) sentiment.

(** [preds = df.label.to_numpy()] after the variant's [replace]. *)
Definition preds_variant1 (predictions : list response) : result (list cell) :=
  df <- build_df new_row_variant1 predictions ;;
  Ok (map label (replace_label value_map_variant1 df)).

Definition preds_variant2 (predictions : list response) : result (list cell) :=
  df2 <- build_df new_row_variant2 predictions ;;
  Ok (map label (replace_label value_map_variant2 df2)).

(** The evaluation cells of one variant, from the collected responses and
    the ground-truth column to the printed accuracy. *)
Definition evaluate_variant1 (predictions : list response) (sentiment : list cell)
    : result float64 :=
  preds <- preds_variant1 predictions ;;
  accuracy preds (groundtruth_labels sentiment).

Definition evaluate_variant2 (predictions : list response) (sentiment : list cell)
    : result float64 :=
  preds <- preds_variant2 predictions ;;
  accuracy preds (groundtruth_labels sentiment).

(** The number of samples whose predicted label equals the expected one. *)
Fixpoint correct_count (preds labels : list cell) : nat :=
  match preds, labels with
  | p :: preds', l :: labels' =>
      (if cell_eqb p l then 1 else 0)%nat + correct_count preds' labels'
  | _, _ => 0%nat
  end.

(** The vocabularies written in the evaluation cells, as functions. *)
Definition vocabulary_variant1 (c : cell) : cell :=
  match c with
  | CStr s =>
      if String.eqb s "LABEL_0" then CNum (inject_Z 0)
      else if String.eqb s "LABEL_1" then CNum (inject_Z 1)
      else if String.eqb s "LABEL_2" then CNum (inject_Z 2)
      else CStr s
  | _ => c
  end.

Definition vocabulary_variant2 (c : cell) : cell :=
  match c with
  | CStr s =>
      if String.eqb s "NEGATIVE" then CNum (inject_Z 0)
      else if String.eqb s "POSITIVE" then CNum (inject_Z 1)
      else CStr s
  | _ => c
  end.

(** A response of the first variant's format, for concrete runs. *)
Definition response_of (raw_label : string) (confidence : Q) : response :=
  text_of (JArray [IObject [("label", SStr raw_label); ("score", SNum confidence)]]).

(** ** The hosting service and the calls the notebook makes to it *)

(** One entry of [DesiredWeightsAndCapacities]. *)
Record desired_weight : Type :=
  mk_desired { DesiredWeight : Z; VariantName : string }.

(** One entry of [describe_endpoint(...)["ProductionVariants"]]. *)
Record variant_summary : Type :=
  mk_summary { SummaryVariantName : string; CurrentWeight : Z }.

(** The dict made by [sagemaker.production_variant]. *)
Record production_variant_decl : Type :=
  mk_decl {
    ModelName : string;
    InstanceType : string;
    InitialInstanceCount : Z;
    DeclVariantName : string;
    InitialVariantWeight : Z
  }.

Definition production_variant (model_name instance_type : string)
    (initial_instance_count : Z) (variant_name : string) (initial_weight : Z)
    : production_variant_decl :=
  mk_decl model_name instance_type initial_instance_count variant_name
          initial_weight.

(** The requests sent to the control plane, in the order of sending. *)
Inductive api_call : Type :=
| CreateEndpoint (EndpointName : string)
    (ProductionVariants : list production_variant_decl)
| UpdateEndpointWeightsAndCapacities (EndpointName : string)
    (DesiredWeightsAndCapacities : list desired_weight)
| DescribeEndpoint (EndpointName : string)
| DeleteEndpoint (EndpointName : string).

Definition is_update (c : api_call) : bool :=
  match c with
  | UpdateEndpointWeightsAndCapacities _ _ => true
  | _ => false
  end.

(** A Python [dict] built by inserting the pairs in order: a later pair
    with the same key overwrites an earlier one. *)
Definition dict_of (pairs : list (string * Z)) : gmap string Z :=
  fold_left (fun m kv => <[kv.1 := kv.2]> m) pairs ∅.

(** The weight updates among a sequence of requests. *)
Definition updates_in (cs : list api_call) : list api_call :=
  List.filter is_update cs.

Definition target_mapping (desired : list desired_weight) : gmap string Z :=
  dict_of (map (fun d => (VariantName d, DesiredWeight d)) desired).

Section Hosting.

(** The hosting service is external: its state and its answers are
    parameters. [elapse n] is the effect of [n] seconds passing. *)
Variable remote : Type.
Variable sm_endpoint_from_production_variants :
  string -> list production_variant_decl -> remote -> remote * result unit.
Variable sm_update_endpoint_weights_and_capacities :
  string -> list desired_weight -> remote -> remote * result unit.
Variable sm_describe_endpoint :
  string -> remote -> result (list variant_summary).
Variable sm_delete_endpoint : string -> remote -> remote * result unit.
Variable elapse : nat -> remote -> remote.

(** What the notebook acts on: the service, and the requests issued so
    far. *)
Record world : Type := mk_world { service : remote; calls : list api_call }.

(** A statement block: it changes the world and returns or raises. *)
Definition cmd (A : Type) : Type := world -> world * result A.

Definition ret {A} (a : A) : cmd A := fun w => (w, Ok a).

Definition seq {A B} (c : cmd A) (k : A -> cmd B) : cmd B :=
  fun w =>
    match c w with
    | (w1, Ok a) => k a w1
    | (w1, Raise cls) => (w1, Raise cls)
    end.

Definition send (c : api_call) (w : world) : world :=
  mk_world (service w) (calls w ++ [c]).

(** [sm_session.endpoint_from_production_variants(name=...,
    production_variants=[...])] *)
Definition endpoint_from_production_variants
    (name : string) (production_variants : list production_variant_decl)
    : cmd unit :=
  fun w =>
    let w1 := send (CreateEndpoint name production_variants) w in
    let '(s, r) := sm_endpoint_from_production_variants name
                     production_variants (service w1) in
    (mk_world s (calls w1), r).

(** [sm_client.update_endpoint_weights_and_capacities(EndpointName=...,
    DesiredWeightsAndCapacities=[...])] as the notebook calls it: the
    request goes out as written. *)
Definition update_endpoint_weights_and_capacities
    (EndpointName : string) (DesiredWeightsAndCapacities : list desired_weight)
    : cmd unit :=
  fun w =>
    let w1 := send (UpdateEndpointWeightsAndCapacities EndpointName
                      DesiredWeightsAndCapacities) w in
    let '(s, r) := sm_update_endpoint_weights_and_capacities EndpointName
                     DesiredWeightsAndCapacities (service w1) in
    (mk_world s (calls w1), r).

(** The weights the service reports in a given state:
    [{variant["VariantName"]: variant["CurrentWeight"] for variant in
      describe_endpoint(EndpointName=endpoint_name)["ProductionVariants"]}] *)
Definition reported_weights (endpoint_name : string) (s : remote)
    : result (gmap string Z) :=
  pvs <- sm_describe_endpoint endpoint_name s ;;
  Ok (dict_of (map (fun v => (SummaryVariantName v, CurrentWeight v)) pvs)).

Definition currentWeights (endpoint_name : string) : cmd (gmap string Z) :=
  fun w => (send (DescribeEndpoint endpoint_name) w,
            reported_weights endpoint_name (service w)).

(** [time.sleep(n)] *)
Definition sleep (n : nat) : cmd unit :=
  fun w => (mk_world (elapse n (service w)) (calls w), Ok tt).

(** [sm_session.delete_endpoint(endpoint_name)] *)
Definition delete_endpoint (endpoint_name : string) : cmd unit :=
  fun w =>
    let w1 := send (DeleteEndpoint endpoint_name) w in
    let '(s, r) := sm_delete_endpoint endpoint_name (service w1) in
    (mk_world s (calls w1), r).

(** Modelled from the spec: [utils.endpoint_update_wait] is called by
    the notebook after each weight update but is not among the source
    files. The spec describes the wait of [shiftTraffic]: poll
    [currentWeights] until it equals the target mapping (exact match)
    or [max_wait] elapses, failing with [RolloutTimeoutError] in the
    latter case. [polls] further polls remain, [poll_interval] seconds
    apart. *)
Fixpoint endpoint_update_wait (polls : nat) (poll_interval : nat)
    (endpoint_name : string) (target : gmap string Z) : cmd unit :=
  fun w =>
    match currentWeights endpoint_name w with
    | (w1, Raise cls) => (w1, Raise cls)
    | (w1, Ok observed) =>
        if decide (observed = target) then (w1, Ok tt)
        else match polls with
             | O => (w1, Raise "RolloutTimeoutError")
             | S polls' =>
                 seq (sleep poll_interval)
                     (fun _ => endpoint_update_wait polls' poll_interval
                                 endpoint_name target) w1
             end
    end.

(** The number of further polls that fit in [max_wait]. *)
Definition poll_budget (poll_interval max_wait : nat) : nat :=
  (max_wait / poll_interval)%nat.

(** Modelled from the spec: [shiftTraffic] is a weight update followed
    by the wait above; the update is the notebook's own call. *)
Definition shiftTraffic (endpoint_name : string)
    (desired : list desired_weight) (poll_interval max_wait : nat)
    : cmd unit :=
  seq (update_endpoint_weights_and_capacities endpoint_name desired)
      (fun _ => endpoint_update_wait (poll_budget poll_interval max_wait)
                  poll_interval endpoint_name (target_mapping desired)).

(** The traffic-shifting cells of Step 4 run one after the other, for any
    list of steps (the notebook has the two of [Notebook.traffic_steps]):
    each step updates the weights and waits, then the notebook spends
    [pause_between_steps] seconds invoking the endpoint before the next
    step. Nothing catches an exception: it ends the run at the statement
    that raised it. *)
Fixpoint progressiveRollout (endpoint_name : string)
    (steps : list (list desired_weight))
    (poll_interval max_wait pause_between_steps : nat) : cmd unit :=
  match steps with
  | [] => ret tt
  | step :: later =>
      seq (shiftTraffic endpoint_name step poll_interval max_wait)
          (fun _ =>
             seq (sleep pause_between_steps)
                 (fun _ => progressiveRollout endpoint_name later
                             poll_interval max_wait pause_between_steps))
  end.

End Hosting.

Arguments mk_world {remote} _ _.
Arguments service {remote} _.
Arguments calls {remote} _.

(** ** The notebook's own variants and traffic steps *)

Module Notebook.

(** The model names are restored from the notebook store ([%store -r]). *)
Definition variant1 (roberta_model_name : string) : production_variant_decl :=
  production_variant roberta_model_name "ml.c5.2xlarge" 1 "Variant1" 1.

Definition variant2 (distilbert_model_name : string) : production_variant_decl :=
  production_variant distilbert_model_name "ml.c5.xlarge" 1 "Variant2" 1.

(** The two [DesiredWeightsAndCapacities] literals of Step 4. *)
Definition weights_75_25 : list desired_weight :=
  [mk_desired 75 "Variant1"; mk_desired 25 "Variant2"].

Definition weights_1_0 : list desired_weight :=
  [mk_desired 1 "Variant1"; mk_desired 0 "Variant2"].

Definition traffic_steps : list (list desired_weight) :=
  [weights_75_25; weights_1_0].

(** [utils.invoke_endpoint_for_two_minutes] and [time.sleep(20)]. *)
Definition pause_between_steps : nat := 140.

End Notebook.

(** ** A reference hosting service

    The behaviour the notebook's text attributes to the service: an
    endpoint hosts the variants it was created with; a weight update
    changes weights only and takes effect some seconds later. It is
    used to run the cells on concrete states only. *)

Module Sim.

Record hosted_variant : Type :=
  mk_hosted { hosted_name : string; current_weight : Z; desired_weight_of : Z }.

Record state : Type :=
  mk_state {
    endpoint : string;
    live : bool;
    variants : list hosted_variant;
    settle_in : nat;   (* seconds until the desired weights are current *)
    latency : nat      (* seconds an accepted update takes *)
  }.

Definition fresh (update_latency : nat) : state :=
  mk_state EmptyString false [] 0 update_latency.

Definition hosts (s : state) (name : string) : bool :=
  existsb (fun v => String.eqb (hosted_name v) name) (variants s).

Definition create (name : string) (pvs : list production_variant_decl)
    (s : state) : state * result unit :=
  if live s then (s, Raise "ClientError")
  else
    (mk_state name true
       (map (fun d => mk_hosted (DeclVariantName d) (InitialVariantWeight d)
                        (InitialVariantWeight d)) pvs)
       0 (latency s),
     Ok tt).

Definition desired_for (desired : list desired_weight) (v : hosted_variant) : Z :=
  match find (fun d => String.eqb (VariantName d) (hosted_name v)) desired with
  | Some d => DesiredWeight d
  | None => desired_weight_of v
  end.

Definition update (name : string) (desired : list desired_weight)
    (s : state) : state * result unit :=
  if negb (live s && String.eqb name (endpoint s)) then (s, Raise "ClientError")
  else if negb (forallb (fun d => hosts s (VariantName d)) desired)
  then (s, Raise "ClientError")
  else
    (mk_state (endpoint s) true
       (map (fun v => mk_hosted (hosted_name v) (current_weight v)
                        (desired_for desired v)) (variants s))
       (latency s) (latency s),
     Ok tt).

Definition settle (s : state) : state :=
  mk_state (endpoint s) (live s)
    (map (fun v => mk_hosted (hosted_name v) (desired_weight_of v)
                     (desired_weight_of v)) (variants s))
    0 (latency s).

Definition elapse (n : nat) (s : state) : state :=
  if Nat.leb (settle_in s) n then settle s
  else mk_state (endpoint s) (live s) (variants s) (settle_in s - n) (latency s).

Definition describe (name : string) (s : state) : result (list variant_summary) :=
  if live s && String.eqb name (endpoint s)
  then Ok (map (fun v => mk_summary (hosted_name v) (current_weight v)) (variants s))
  else Raise "ClientError".

End Sim.

(** The cells instantiated on the reference service. *)
Definition sim_create := endpoint_from_production_variants Sim.state Sim.create.
Definition sim_update := update_endpoint_weights_and_capacities Sim.state Sim.update.
Definition sim_shiftTraffic :=
  shiftTraffic Sim.state Sim.update Sim.describe Sim.elapse.
Definition sim_progressiveRollout :=
  progressiveRollout Sim.state Sim.update Sim.describe Sim.elapse.

(** The endpoint of the notebook just after its creation, on a service
    whose updates take [update_latency] seconds. *)
Definition created_endpoint (update_latency : nat) : world Sim.state :=
  fst (sim_create "E" [Notebook.variant1 "roberta"; Notebook.variant2 "distilbert"]
         (mk_world (Sim.fresh update_latency) [])).

(** A run of the traffic steps on the reference service fails at its
    [k]-th step (counting from 1) with exception [cls]: the steps before
    it succeed and the step itself raises. *)
Definition rollout_fails_at (w : world Sim.state)
    (steps : list (list desired_weight)) (k : nat) (cls : string) : Prop :=
  exists pre step post w1 w',
    steps = (pre ++ step :: post)%list /\ k = S (length pre) /\
    sim_progressiveRollout "E" pre 5 30 Notebook.pause_between_steps w
    = (w1, Ok tt) /\
    sim_shiftTraffic "E" step 5 30 w1 = (w', Raise cls).

(** ** Training set-up of the experiments notebook *)

Module Experiment.

(** The optimizer objects [train_model] can build. *)
Inductive torch_optimizer : Type :=
| SGD (lr momentum : Q)
| Adam (lr : Q).

Definition momentum : Q := 5 # 10.
Definition lr : Q := 1 # 100.

(** <<
    if optimizer == "sgd":
        optimizer = torch.optim.SGD(model.parameters(), lr=lr, momentum=momentum)
    else:
        optimizer = torch.optim.Adam(model.parameters(), lr=lr)
    >>
    as a statement: the optimizer bound afterwards, or an exception. *)
Definition select_optimizer (optimizer : string) : result torch_optimizer :=
  if String.eqb optimizer "sgd"
  then Ok (SGD lr momentum)
  else Ok (Adam lr).

(** What [train_model] has fixed before its first epoch: the parameters
    logged to the run and the optimizer it trains with. *)
Record training_setup : Type :=
  mk_setup {
    logged_optimizer : string;
    logged_epochs : Z;
    logged_hidden_channels : Z;
    logged_data_dir : string;
    used_optimizer : torch_optimizer
  }.

Definition train_model (data_dir optimizer : string) (epochs hidden_channels : Z)
    : result training_setup :=
  opt <- select_optimizer optimizer ;;
  Ok (mk_setup optimizer epochs hidden_channels data_dir opt).

(** The call of the first experiment:
    [train_model(run=run, train_set=train_set, test_set=test_set,
                 epochs=6, hidden_channels=3, optimizer="SGD")],
    [data_dir] keeping its default. *)
Definition first_experiment : result training_setup :=
  train_model "mnist_data" "SGD" 6 3.

Definition is_sgd (o : torch_optimizer) : bool :=
  match o with SGD _ _ => true | Adam _ => false end.

End Experiment.

(** ** Training and its metrics (experiments notebook) *)

(** What the notebook uses of torch. Tensors of numbers are lists; a
    batch is the list of its samples, each an input with its target
    class; the outputs of the network are the exact values of its
    log-probabilities. Arithmetic on floating-point numbers, the
    network, its optimizer and the random generator are torch's and
    Python's own. *)
Class Torch : Type := {
  float : Type;
  input : Type;
  net : Type;
  rng : Type;
  dataset : Type;
  loader : Type;
  float_of_int : Z -> float;
  float_add : float -> float -> float;
  float_mul : float -> float -> float;
  float_div : float -> float -> float;
  hundred : float;
  (* torch.manual_seed(seed) *)
  manual_seed : Z -> rng;
  (* torch.utils.data.DataLoader(dataset, batch_size=n, shuffle=b) *)
  data_loader : dataset -> Z -> bool -> result loader;
  (* len(data_loader.dataset) *)
  dataset_len : loader -> nat;
  (* one pass of "for data, target in data_loader" *)
  iterate : loader -> rng -> rng * list (list (input * Z));
  (* torch.nn.DataParallel(Net(hidden_channels, kernel_size, drop_out).to(device)) *)
  new_net : Z -> Z -> Q -> rng -> rng * net;
  (* the optimizer object made over model.parameters() *)
  with_optimizer : net -> Experiment.torch_optimizer -> net;
  (* model.train() and model.eval() *)
  set_train : net -> net;
  set_eval : net -> net;
  (* model(data) *)
  model_call : net -> rng -> list input -> rng * result (list (list Q));
  (* zero_grad, forward, nll_loss, backward and optimizer step on a batch *)
  train_step : net -> rng -> list (input * Z) -> rng * result net;
  (* torch.nn.functional.nll_loss(output, target, reduction="sum").item() *)
  nll_loss_sum : list (list Q) -> list Z -> result float
}.

Module Training.

Section WithTorch.

Context `{T : Torch}.

(** A Python number that starts as an [int] and becomes a [float]. *)
Inductive pynum : Type :=
| PInt (z : Z)
| PFloat (f : float).

Definition to_float (x : pynum) : float :=
  match x with
  | PInt z => float_of_int z
  | PFloat f => f
  end.

(** [x += f] for a float [f]. *)
Definition add_float (x : pynum) (f : float) : pynum :=
  PFloat (float_add (to_float x) f).

(** [x / n] for an integer [n]. *)
Definition div_int (x : pynum) (n : Z) : result float :=
  if Z.eqb n 0 then Raise "ZeroDivisionError"
  else Ok (float_div (to_float x) (float_of_int n)).

(** [100.0 * correct / n] *)
Definition percent (correct n : Z) : result float :=
  if Z.eqb n 0 then Raise "ZeroDivisionError"
  else Ok (float_div (float_mul hundred (float_of_int correct)) (float_of_int n)).

(** What is written to the experiment run. *)
Inductive param_value : Type :=
| PStr (s : string)
| PNum (z : Z).

Inductive log_record : Type :=
| LogParameter (name : string) (value : param_value)
| LogParameters (values : list (string * param_value))
| LogMetric (name : string) (value : float) (step : Z)
| LogConfusionMatrix (y_true y_pred : list Z) (title : string).

(** The position of the first largest value of a row:
    [row.max(...)[1]]. *)
Fixpoint argmax_from (best_at : Z) (best : Q) (at_ : Z) (xs : list Q) : Z :=
  match xs with
  | [] => best_at
  | x :: xs' =>
      if Qle_bool x best then argmax_from best_at best (at_ + 1) xs'
      else argmax_from at_ x (at_ + 1) xs'
  end.

Definition argmax (xs : list Q) : result Z :=
  match xs with
  | [] => Raise "IndexError"
  | x :: xs' => Ok (argmax_from 0 x 1 xs')
  end.

(** [pred.eq(target.view_as(pred)).sum().item()] *)
Definition count_equal (pred target : list Z) : Z :=
  Z.of_nat (length (List.filter (fun pt => Z.eqb pt.1 pt.2) (combine pred target))).

(** The state the training code acts on besides the network: the random
    generator and the records logged to the run so far. *)
Record session : Type :=
  mk_session { the_rng : rng; run_log : list log_record }.

Definition log (r : log_record) (s : session) : session :=
  mk_session (the_rng s) (run_log s ++ [r]).

(** The body of the evaluation loop on one batch: the loss and the
    number of correct predictions so far, updated. *)
Definition evaluate_batch (model : net)
    (acc : rng * (pynum * Z)) (batch : list (input * Z))
    : rng * result (pynum * Z) :=
  let '(g, (loss, correct)) := acc in
  let target := map snd batch in
  match model_call model g (map fst batch) with
  | (g1, Raise cls) => (g1, Raise cls)
  | (g1, Ok output) =>
      (g1,
       l <- (if Nat.eqb (length output) (length target)
             then nll_loss_sum output target
             else Raise "ValueError") ;;
       pred <- traverse argmax output ;;
       Ok (add_float loss l, correct + count_equal pred target))
  end.

Fixpoint evaluate_batches (model : net) (g : rng)
    (loss : pynum) (correct : Z) (batches : list (list (input * Z)))
    : rng * result (pynum * Z) :=
  match batches with
  | [] => (g, Ok (loss, correct))
  | batch :: rest =>
      match evaluate_batch model (g, (loss, correct)) batch with
      | (g1, Raise cls) => (g1, Raise cls)
      | (g1, Ok (loss1, correct1)) => evaluate_batches model g1 loss1 correct1 rest
      end
  end.

(** [log_performance(model, data_loader, device, epoch, run, metric_type)]:
    the session afterwards, and the network, now in evaluation mode. *)
Definition log_performance (model : net) (data_loader_ : loader)
    (epoch : Z) (metric_type : string) (s : session)
    : session * result net :=
  let model := set_eval model in
  let '(g1, batches) := iterate data_loader_ (the_rng s) in
  match evaluate_batches model g1 (PInt 0) 0 batches with
  | (g2, Raise cls) => (mk_session g2 (run_log s), Raise cls)
  | (g2, Ok (loss, correct)) =>
      let s2 := mk_session g2 (run_log s) in
      let n := Z.of_nat (dataset_len data_loader_) in
      match div_int loss n with
      | Raise cls => (s2, Raise cls)
      | Ok loss =>
          match percent correct n with
          | Raise cls => (s2, Raise cls)
          | Ok accuracy =>
              (log (LogMetric (metric_type ++ ":accuracy") accuracy epoch)
                 (log (LogMetric (metric_type ++ ":loss") loss epoch) s2),
               Ok model)
          end
      end
  end.

(** [range(lo, hi)] *)
Definition py_range (lo hi : Z) : list Z :=
  map (fun i => lo + Z.of_nat i) (List.seq 0 (Z.to_nat (hi - lo))).

(** The inner training loop of one epoch. *)
Fixpoint train_batches (model : net) (g : rng)
    (batches : list (list (input * Z))) : rng * result net :=
  match batches with
  | [] => (g, Ok model)
  | batch :: rest =>
      match train_step model g batch with
      | (g1, Raise cls) => (g1, Raise cls)
      | (g1, Ok model1) => train_batches model1 g1 rest
      end
  end.

(** One turn of [for epoch in range(1, epochs + 1)]. *)
Definition train_epoch (train_loader test_loader : loader)
    (model : net) (epoch : Z) (s : session) : session * result net :=
  let model := set_train model in
  let '(g1, batches) := iterate train_loader (the_rng s) in
  match train_batches model g1 batches with
  | (g2, Raise cls) => (mk_session g2 (run_log s), Raise cls)
  | (g2, Ok model) =>
      match log_performance model train_loader epoch "Train"
              (mk_session g2 (run_log s)) with
      | (s3, Raise cls) => (s3, Raise cls)
      | (s3, Ok model) => log_performance model test_loader epoch "Test" s3
      end
  end.

Fixpoint train_epochs (train_loader test_loader : loader)
    (model : net) (epochs : list Z) (s : session) : session * result net :=
  match epochs with
  | [] => (s, Ok model)
  | epoch :: rest =>
      match train_epoch train_loader test_loader model epoch s with
      | (s1, Raise cls) => (s1, Raise cls)
      | (s1, Ok model1) => train_epochs train_loader test_loader model1 rest s1
      end
  end.

(** The closing loop: one confusion matrix per batch of the test
    loader. *)
Fixpoint log_confusion_matrices (model : net)
    (batches : list (list (input * Z))) (s : session) : session * result unit :=
  match batches with
  | [] => (s, Ok tt)
  | batch :: rest =>
      match model_call model (the_rng s) (map fst batch) with
      | (g1, Raise cls) => (mk_session g1 (run_log s), Raise cls)
      | (g1, Ok output) =>
          match traverse argmax output with
          | Raise cls => (mk_session g1 (run_log s), Raise cls)
          | Ok pred =>
              log_confusion_matrices model rest
                (log (LogConfusionMatrix (map snd batch) pred
                        "Confusion-Matrix-Test-Data")
                   (mk_session g1 (run_log s)))
          end
      end
  end.

(** [train_model(run, train_set, test_set, data_dir, optimizer, epochs,
    hidden_channels)], the run being the log of the session. *)
Definition train_model (train_set test_set : dataset)
    (data_dir optimizer : string) (epochs hidden_channels : Z)
    (s : session) : session * result unit :=
  let s := log (LogParameter "device" (PStr "cpu")) s in
  let s := log (LogParameters [("data_dir", PStr data_dir);
                               ("optimizer", PStr optimizer);
                               ("epochs", PNum epochs);
                               ("hidden_channels", PNum hidden_channels)]) s in
  let s := mk_session (manual_seed 42) (run_log s) in
  match data_loader train_set 64 true with
  | Raise cls => (s, Raise cls)
  | Ok train_loader =>
      match data_loader test_set 1000 true with
      | Raise cls => (s, Raise cls)
      | Ok test_loader =>
          let '(g, model) := new_net hidden_channels 5 (5 # 10) (the_rng s) in
          let s := mk_session g (run_log s) in
          match Experiment.select_optimizer optimizer with
          | Raise cls => (s, Raise cls)
          | Ok opt =>
              let model := with_optimizer model opt in
              match train_epochs train_loader test_loader model
                      (py_range 1 (epochs + 1)) s with
              | (s1, Raise cls) => (s1, Raise cls)
              | (s1, Ok model) =>
                  let '(g1, batches) := iterate test_loader (the_rng s1) in
                  log_confusion_matrices model batches
                    (mk_session g1 (run_log s1))
              end
          end
      end
  end.

(** The names and steps of the metrics in a run log, in order. *)
Definition metric_steps (records : list log_record) : list (string * Z) :=
  flat_map (fun r => match r with
                     | LogMetric name _ step => [(name, step)]
                     | _ => []
                     end) records.

(** The metrics one epoch contributes. *)
Definition epoch_metrics (epoch : Z) : list (string * Z) :=
  [("Train:loss", epoch); ("Train:accuracy", epoch);
   ("Test:loss", epoch); ("Test:accuracy", epoch)].

(** The samples of a list that a scoring of the inputs classifies as
    their target. *)
Definition correctly_classified (scores : input -> list Q)
    (samples : list (input * Z)) : nat :=
  length (List.filter
            (fun sample => match argmax (scores sample.1) with
                           | Ok k => Z.eqb k sample.2
                           | Raise _ => false
                           end) samples).

(** The log of the second session continues the log of the first. *)
Definition continues (s s' : session) : Prop :=
  exists later, run_log s' = (run_log s ++ later)%list.

End WithTorch.

End Training.

(** ** Preparing the experiment analysis (both experiments notebooks) *)

Module Analysis.

(** [s.split(sep)] for a non-empty separator: the pieces between the
    occurrences of [sep] found from left to right. [skip] characters of
    an occurrence already found remain to be passed over; [piece] is the
    piece being read. *)
Fixpoint split_from (sep : string) (skip : nat) (piece : string) (s : string)
    : list string :=
  match s with
  | EmptyString => [piece]
  | String c rest =>
      match skip with
      | S k => split_from sep k piece rest
      | O =>
          if String.prefix sep s
          then piece :: split_from sep (String.length sep - 1) EmptyString rest
          else split_from sep 0 (piece ++ String c EmptyString) rest
      end
  end.

Definition py_split (sep : string) (s : string) : list string :=
  split_from sep 0 EmptyString s.

(** The dtype of a dataframe column, as far as [select_dtypes] tells
    them apart. *)
Inductive dtype : Type := ObjectDtype | NumberDtype | OtherDtype.

Definition dtype_eqb (a b : dtype) : bool :=
  match a, b with
  | ObjectDtype, ObjectDtype | NumberDtype, NumberDtype
  | OtherDtype, OtherDtype => true
  | _, _ => false
  end.

(** A dataframe: its columns in order, each with a name met once, all of
    one length. *)
Record column : Type :=
  mk_column { col_name : string; col_dtype : dtype; col_values : list cell }.

Definition find_column (name : string) (df : list column) : option column :=
  List.find (fun c => String.eqb (col_name c) name) df.

Definition has_column (name : string) (df : list column) : bool :=
  match find_column name df with Some _ => true | None => false end.

(** [df[names]] for a list of names. *)
Definition select_columns (names : list string) (df : list column)
    : result (list column) :=
  traverse (fun name => match find_column name df with
                        | Some c => Ok c
                        | None => Raise "KeyError"
                        end) names.

(** [df.select_dtypes(d)] *)
Definition select_dtypes (d : dtype) (df : list column) : list column :=
  List.filter (fun c => dtype_eqb (col_dtype c) d) df.

Definition isna (c : cell) : bool :=
  match c with CNone | CNaN => true | _ => false end.

Fixpoint mask {A} (keep : list bool) (xs : list A) : list A :=
  match keep, xs with
  | k :: keep', x :: xs' => if k then x :: mask keep' xs' else mask keep' xs'
  | _, _ => []
  end.

(** [df[keep]] for a boolean series. *)
Definition keep_rows (keep : list bool) (df : list column) : list column :=
  map (fun c => mk_column (col_name c) (col_dtype c) (mask keep (col_values c))) df.

Definition nrows (df : list column) : nat :=
  match df with
  | [] => 0%nat
  | c :: _ => length (col_values c)
  end.

Definition row_at (i : nat) (cols : list column) : list cell :=
  map (fun c => nth i (col_values c) CNaN) cols.

Definition rows_of (n : nat) (cols : list column) : list (list cell) :=
  map (fun i => row_at i cols) (List.seq 0 n).

(** [df.loc[:, name] = values] *)
Definition set_column (name : string) (values : list cell) (df : list column)
    : list column :=
  if has_column name df
  then map (fun c => if String.eqb (col_name c) name
                     then mk_column name ObjectDtype values else c) df
  else (df ++ [mk_column name ObjectDtype values])%list.

(** [df.drop(columns=names)] for names that are columns. *)
Definition drop_columns (names : list string) (df : list column) : list column :=
  List.filter (fun c => negb (existsb (String.eqb (col_name c)) names)) df.

(** A row of [df.melt(id_vars=...)], then with the two columns the split
    of [variable] adds. *)
Record melted_row : Type :=
  mk_melted { id_values : list cell; variable : string; value : cell }.

Record plot_row : Type :=
  mk_plot_row { melted : melted_row; Dataset : string; Metrics : option string }.

(** [df.melt(id_vars=id_vars)] *)
Definition melt (id_vars : list string) (df : list column)
    : result (list melted_row) :=
  id_cols <- select_columns id_vars df ;;
  let value_cols := drop_columns id_vars df in
  let ids := rows_of (nrows df) id_cols in
  Ok (flat_map (fun c => map (fun '(i, v) => mk_melted i (col_name c) v)
                           (combine ids (col_values c)))
               value_cols).

(** [variable.str.split(" - ").str[0].str.split(":", expand=True)] on one
    name. *)
Definition dataset_and_metric (variable_ : string) : list string :=
  py_split ":" (hd EmptyString (py_split " - " variable_)).

(** [df_plot[["Dataset", "Metrics"]] = ...]: the expanded split must be
    two columns wide; a name without colon gets no metric. *)
Definition add_dataset_and_metrics (rows : list melted_row)
    : result (list plot_row) :=
  let pieces := map (fun r => dataset_and_metric (variable r)) rows in
  if Nat.eqb (list_max (map (@length string) pieces)) 2
  then Ok (map (fun '(r, ps) => mk_plot_row r (hd EmptyString ps) (nth_error ps 1))
               (combine rows pieces))
  else Raise "ValueError".

(** What the function has ready when it starts drawing. *)
Record prepared : Type :=
  mk_prepared {
    df_plot : list plot_row;
    ordinal_params : list string;
    cat_col_name : string
  }.

(** The pattern given to [df.filter(regex=...)]. *)
Definition metric_pattern (stat_name k : string) : string :=
  k ++ ".*- " ++ stat_name.

Definition re_expr (parameter_names metric_names : list string)
    (stat_name : string) : string :=
  "(?:"
  ++ String.concat "|"
       (map (metric_pattern stat_name) metric_names
        ++ parameter_names ++ ["DisplayName"])%list
  ++ ")".

Section WithPython.

(** [re.compile(pattern)], as the matcher's [search] succeeding or not
    on a text, or [re.error] for a pattern that does not compile; and
    [str(x)]. Both are Python's. *)
Variable re_compile : string -> result (string -> bool).
Variable py_str : cell -> string.

(** [df = df[df["SourceArn"].isna()]] then [df = df.filter(regex=re_expr)] *)
Definition local_runs (pattern : string) (df : list column)
    : result (list column) :=
  match find_column "SourceArn" df with
  | None => Raise "KeyError"
  | Some source_arn =>
      let df := keep_rows (map isna (col_values source_arn)) df in
      search <- re_compile pattern ;;
      Ok (List.filter (fun c => search (col_name c)) df)
  end.

(** The categorical parameters: [df[parameter_names].select_dtypes("object")] *)
Definition categorical_parameters (parameter_names : list string)
    (df : list column) : result (list column) :=
  cols <- select_columns parameter_names df ;;
  Ok (select_dtypes ObjectDtype cols).

(** [df_temp.astype(str).apply("_".join, axis=1)] *)
Definition joined_categories (df : list column) (df_temp : list column)
    : list cell :=
  map (fun r => CStr (String.concat "_" (map py_str r)))
      (rows_of (nrows df) df_temp).

(** [analyze_experiment(parameter_names, metric_names, stat_name)] on the
    dataframe of the experiment's analytics, up to the point where the
    figure is drawn. *)
Definition analyze_experiment (parameter_names metric_names : list string)
    (stat_name : string) (analytics : list column) : result prepared :=
  df <- local_runs (re_expr parameter_names metric_names stat_name) analytics ;;
  df_temp <- categorical_parameters parameter_names df ;;
  let cat_col_name := String.concat "_" (map col_name df_temp) in
  let df :=
    if Nat.ltb 1 (length df_temp)
    then drop_columns (map col_name df_temp)
           (set_column cat_col_name (joined_categories df df_temp) df)
    else df in
  cols <- select_columns parameter_names df ;;
  let ordinal_params := map col_name (select_dtypes NumberDtype cols) in
  melted_rows <- melt ("DisplayName" :: ordinal_params ++ [cat_col_name])%list df ;;
  rows <- add_dataset_and_metrics melted_rows ;;
  Ok (mk_prepared rows ordinal_params cat_col_name).

End WithPython.

(** The name under which [log_performance] logs a metric, followed by
    the statistic as the analytics dataframe names its columns. *)
Definition metric_column (metric_type metric stat_name : string) : string :=
  (metric_type ++ ":" ++ metric) ++ " - " ++ stat_name.

(** A string without the given character. *)
Fixpoint lacks (c : Ascii.ascii) (s : string) : Prop :=
  match s with
  | EmptyString => True
  | String c' rest => c' <> c /\ lacks c rest
  end.

End Analysis.

(** ** Shapes through the network (experiments notebook) *)

Module NetShape.











End NetShape.

(** ** The sweep of training jobs (script-mode notebook) *)

Module Sweep.

(** [f"{h}"] for a Python integer. *)
Definition format_int (h : Z) : string :=
  NilZero.string_of_int (Z.to_int h).

(** [f"{run_name_base}-{j}-{h}"] *)
Definition run_name_n (run_name_base j : string) (h : Z) : string :=
  run_name_base ++ "-" ++ j ++ "-" ++ format_int h.

(** What one turn of the loops hands to the training service: the run it
    is tracked under and the estimator's settings. *)
Record training_job : Type :=
  mk_job {
    run_name : string;
    entry_point : string;
    role : string;
    model_dir : bool;
    framework_version : string;
    py_version : string;
    instance_type : string;
    instance_count : Z;
    hp_epochs : Z;
    hp_hidden_channels : Z;
    hp_optimizer : string;
    keep_alive_period_in_seconds : Z
  }.

Definition job (role_ run_name_base j : string) (h : Z) : training_job :=
  mk_job (run_name_n run_name_base j h) "./script/mnist.py" role_ false
         "1.12" "py38" "ml.c5.xlarge" 1 10 h j 1200.

(** The jobs the two loops start, in order:
    <<
    for h in hidden_channels:
        for j in optimizer:
            run_name_n = f"{run_name_base}-{j}-{h}"
            ...
    >> *)
Definition jobs_of (role_ run_name_base : string) (hidden_channels : list Z)
    (optimizer : list string) : list training_job :=
  flat_map (fun h => map (fun j => job role_ run_name_base j h) optimizer)
           hidden_channels.

End Sweep.

(** For concrete runs: what the matcher compiled from the pattern
    [re_expr parameter_names metric_names stat_name] answers on a column
    name, when the names hold no regular-expression metacharacter: a
    parameter name or [DisplayName] occurs in the name, or a metric name
    occurs in it and [- stat_name] after it. The pattern itself is not
    parsed. *)
Definition contains (part text : string) : bool :=
  match String.index 0 part text with Some _ => true | None => false end.

Definition occurs_then (k after text : string) : bool :=
  match String.index 0 k text with
  | Some i =>
      match String.index (i + String.length k) after text with
      | Some _ => true
      | None => false
      end
  | None => false
  end.

Definition search_expr (parameter_names metric_names : list string)
    (stat_name : string) (text : string) : bool :=
  existsb (fun k => occurs_then k ("- " ++ stat_name) text) metric_names
  || existsb (fun k => contains k text) (parameter_names ++ ["DisplayName"])%list.

Definition compile_expr (parameter_names metric_names : list string)
    (stat_name : string) (pattern : string) : result (string -> bool) :=
  Ok (search_expr parameter_names metric_names stat_name).

Definition str_of_cell (c : cell) : string :=
  match c with
  | CStr s => s
  | CNum _ => "0"
  | CNone => "None"
  | CNaN => "nan"
  end.

(** An analytics dataframe of two runs, one of them made by a training
    job. *)
Definition toy_analytics : list Analysis.column :=
  [Analysis.mk_column "DisplayName" Analysis.ObjectDtype [CStr "run-a"; CStr "run-b"];
   Analysis.mk_column "SourceArn" Analysis.ObjectDtype [CNaN; CStr "arn:job"];
   Analysis.mk_column "device" Analysis.ObjectDtype [CStr "cpu"; CStr "cpu"];
   Analysis.mk_column "hidden_channels" Analysis.NumberDtype [CNum 5; CNum 10];
   Analysis.mk_column "optimizer" Analysis.ObjectDtype [CStr "adam"; CStr "sgd"];
   Analysis.mk_column "Test:accuracy - Last" Analysis.NumberDtype [CNum 97; CNum 98];
   Analysis.mk_column "Test:accuracy - Max" Analysis.NumberDtype [CNum 98; CNum 99]].

(** A small stand-in for torch, to run the training code on concrete
    data: an input is its own row of scores, a loader holds its batches
    ready-made, floats are rationals. *)
Definition toy_torch : Torch :=
  {| float := Q;
     input := list Q;
     net := bool;
     rng := nat;
     dataset := list (list Q * Z);
     loader := list (list (list Q * Z));
     float_of_int := inject_Z;
     float_add := Qplus;
     float_mul := Qmult;
     float_div := Qdiv;
     hundred := inject_Z 100;
     manual_seed := Z.to_nat;
     data_loader := fun d _ _ => Ok (match d with [] => [] | _ => [d] end);
     dataset_len := fun l => length (concat l);
     iterate := fun l g => (S g, l);
     new_net := fun _ _ _ g => (g, true);
     with_optimizer := fun n _ => n;
     set_train := fun _ => true;
     set_eval := fun _ => false;
     model_call := fun _ g xs => (g, Ok xs);
     train_step := fun n g _ => (g, Ok n);
     nll_loss_sum := fun _ _ => Ok (inject_Z 0) |}.

(** Three samples in two batches; the first and the last are classified
    as their target. *)
Definition toy_loader : @loader toy_torch :=
  [[([1 # 10; 9 # 10], 1); ([5 # 10; 5 # 10], 1)]; [([7 # 10; 3 # 10], 0)]].

(** ** Further vocabulary for the evaluation cells *)

(** A response of the second variant's format: every label with its
    score. *)
Definition scored_labels (scores : list (string * Q)) : response :=
  text_of (JArray [IArray (map (fun ls => [("label", SStr ls.1);
                                             ("score", SNum ls.2)]) scores)]).

(** Every score of a frame is a number, as in an endpoint's response. *)
Definition numeric_scores (tmp_df : list row) : Prop :=
  Forall (fun r => exists q : Q, score r = CNum q) tmp_df.


(** The expected labels equal to one predicted label. *)
Definition agreeing_labels (pred : cell) (labels : list cell) : nat :=
  length (List.filter (fun l => cell_eqb pred l) labels).

(** The predictions equal to one expected label. *)
Definition matches_of (l : cell) (preds : list cell) : nat :=
  length (List.filter (fun p => cell_eqb p l) preds).

(** * Properties *)

(** Closes a goal about a concrete run by evaluating the cells. *)
Ltac run_cells := vm_compute; reflexivity.

(** ** Exceptions propagate *)

Lemma bind_ok {A B} (r : result A) (k : A -> result B) (b : B) :
  Py.bind r k = Ok b -> exists a, r = Ok a /\ k a = Ok b.
Proof. destruct r as [a|cls]; simpl; [eauto | discriminate]. Qed.

Lemma bind_raise {A B} (r : result A) (k : A -> result B) (cls : string) :
  Py.bind r k = Raise cls ->
  r = Raise cls \/ exists a, r = Ok a /\ k a = Raise cls.
Proof. destruct r as [a|c]; simpl; [eauto | intros [= ->]; auto]. Qed.

(** ** Accuracy *)

Section Accuracy.

Lemma count_true_from (bs : list bool) (acc : Z) :
  fold_left (fun a (b : bool) => a + Z.b2z b) bs acc = acc + count_true bs.
Proof.
  unfold count_true. revert acc.
  induction bs as [|b bs IH]; intros acc; cbn [fold_left]; [lia|].
  rewrite (IH (acc + Z.b2z b)), (IH (0 + Z.b2z b)). lia.
Qed.

Lemma count_true_cons (b : bool) (bs : list bool) :
  count_true (b :: bs) = Z.b2z b + count_true bs.
Proof. unfold count_true at 1. simpl. apply count_true_from. Qed.

(** On arrays of one length, [sum(preds == labels)] counts the samples
    predicted correctly. *)
Lemma count_true_hits (preds labels : list cell) :
  length preds = length labels ->
  count_true (map (fun '(x, y) => cell_eqb x y) (combine preds labels))
  = Z.of_nat (correct_count preds labels).
Proof.
  revert labels.
  induction preds as [|p preds IH]; intros [|l labels] Hlen;
    simpl in *; try discriminate; [reflexivity|].
  injection Hlen as Hlen.
  rewrite count_true_cons, (IH _ Hlen).
  destruct (cell_eqb p l); simpl Z.b2z; lia.
Qed.

Lemma np_equal_same_length (preds labels : list cell) :
  length preds = length labels ->
  np_equal preds labels
  = Ok (map (fun '(x, y) => cell_eqb x y) (combine preds labels)).
Proof.
  intros Hlen. unfold np_equal.
  now rewrite (proj2 (Nat.eqb_eq _ _) Hlen).
Qed.

(** The sum of the hits divided by a length that is not zero, whichever
    kind of integer the sum is. *)
Lemma true_divide_count (bs : list bool) (n : Z) :
  n <> 0 -> true_divide (py_sum bs) n = Ok (quotient (count_true bs) n).
Proof.
  intros Hn. destruct bs as [|b bs]; simpl; [|reflexivity].
  destruct (Z.eqb_spec n 0); [contradiction | reflexivity].
Qed.

End Accuracy.

(** With one prediction per expected label, the accuracy cell divides
    the number of correct predictions by the number of labels. *)
Lemma accuracy_ratio (preds labels : list cell) :
  labels <> [] ->
  length preds = length labels ->
  accuracy preds labels
  = Ok (quotient (Z.of_nat (correct_count preds labels))
                 (Z.of_nat (length labels))).
Proof.
  intros Hne Hlen.
  unfold accuracy. rewrite (np_equal_same_length _ _ Hlen). cbn [Py.bind].
  rewrite true_divide_count, (count_true_hits _ _ Hlen); [reflexivity|].
  destruct labels; [congruence | simpl; lia].
Qed.

(** C1. Three responses of the first variant, each of them right about
    its own sample: evaluated one at a time, every sample scores 1.0;
    evaluated as a batch, the accuracy is the float of 1/3 and not that
    of 3/3, since the three rows of the dataframe all come from the
    first response. *)
Theorem batch_accuracy_counts_first_response_only :
  evaluate_variant1 [response_of "LABEL_0" (9 # 10)] [CStr "negative"]
  = Ok (quotient 1 1) /\
  evaluate_variant1 [response_of "LABEL_1" (8 # 10)] [CStr "neutral"]
  = Ok (quotient 1 1) /\
  evaluate_variant1 [response_of "LABEL_2" (7 # 10)] [CStr "positive"]
  = Ok (quotient 1 1) /\
  evaluate_variant1
    [response_of "LABEL_0" (9 # 10); response_of "LABEL_1" (8 # 10);
     response_of "LABEL_2" (7 # 10)]
    [CStr "negative"; CStr "neutral"; CStr "positive"]
  = Ok (quotient 1 3) /\
  quotient 1 3 <> quotient 3 3.
Proof.
  repeat split; try run_cells. vm_compute. discriminate.
Qed.

(** ** The empty batch *)

(** C2, as stated, fails on the empty batch: the evaluation does not end
    in [EmptyBatchError] without dividing by zero. *)
Lemma empty_batch_is_not_guarded :
  ~ (evaluate_variant1 [] [] = Raise "EmptyBatchError" /\
     evaluate_variant1 [] [] <> Raise "ZeroDivisionError").
Proof. intros [_ H]. apply H. reflexivity. Qed.

(** C2, amended. On an empty batch nothing guards the quotient: both
    evaluations reach [0 / 0] and raise Python's [ZeroDivisionError];
    so does the accuracy cell whenever there are no labels and at most
    one prediction. *)
Theorem empty_batch_divides_by_zero :
  evaluate_variant1 [] [] = Raise "ZeroDivisionError" /\
  evaluate_variant2 [] [] = Raise "ZeroDivisionError" /\
  forall preds : list cell,
    (length preds <= 1)%nat -> accuracy preds [] = Raise "ZeroDivisionError".
Proof.
  split; [reflexivity|]. split; [reflexivity|].
  intros [|p [|q preds]] Hlen; simpl in Hlen; [reflexivity | reflexivity | lia].
Qed.

(** One prediction against no label at all. *)
Lemma empty_batch_divides_by_zero_witness :
  accuracy [CNum 1] [] = Raise "ZeroDivisionError".
Proof.
  apply (proj2 (proj2 empty_batch_divides_by_zero) [CNum 1]). simpl. lia.
Defined.

(** ** Label vocabularies *)

Lemma replace_cell_variant1 (c : cell) :
  replace_cell value_map_variant1 c = vocabulary_variant1 c.
Proof.
  destruct c as [s| | |]; try reflexivity.
  unfold replace_cell, value_map_variant1, vocabulary_variant1.
  destruct (String.eqb_spec s "LABEL_0") as [->|H0]; [reflexivity|].
  rewrite lookup_insert_ne by congruence.
  destruct (String.eqb_spec s "LABEL_1") as [->|H1]; [reflexivity|].
  rewrite lookup_insert_ne by congruence.
  destruct (String.eqb_spec s "LABEL_2") as [->|H2]; [reflexivity|].
  rewrite lookup_insert_ne by congruence.
  now rewrite lookup_empty.
Qed.

Lemma replace_cell_variant2 (c : cell) :
  replace_cell value_map_variant2 c = vocabulary_variant2 c.
Proof.
  destruct c as [s| | |]; try reflexivity.
  unfold replace_cell, value_map_variant2, vocabulary_variant2.
  destruct (String.eqb_spec s "NEGATIVE") as [->|H0]; [reflexivity|].
  rewrite lookup_insert_ne by congruence.
  destruct (String.eqb_spec s "POSITIVE") as [->|H1]; [reflexivity|].
  rewrite lookup_insert_ne by congruence.
  now rewrite lookup_empty.
Qed.

Lemma map_label_replace (value_map : gmap string Z) (df : list row) :
  map label (replace_label value_map df)
  = map (replace_cell value_map) (map label df).
Proof.
  unfold replace_label. rewrite !map_map. reflexivity.
Qed.

(** C8, as stated, fails: a caller who wants [LABEL_0] read as class 2
    cannot have it, the evaluation of Variant1 reads it as class 0. *)
Lemma label_mapping_is_not_supplied_by_caller :
  ~ (forall (label_mapping : cell -> cell) (predictions : list response)
            (df : list row),
       build_df new_row_variant1 predictions = Ok df ->
       preds_variant1 predictions = Ok (map label_mapping (map label df))).
Proof.
  intros H.
  specialize (H (fun _ => CNum (inject_Z 2)) [response_of "LABEL_0" (9 # 10)]
                [mk_row (CStr "LABEL_0") (CNum (9 # 10))] eq_refl).
  vm_compute in H. discriminate H.
Qed.

(** C8, amended. Each variant's raw labels are mapped by the [value_map]
    literal written in that variant's evaluation cell: [LABEL_0],
    [LABEL_1], [LABEL_2] to 0, 1, 2 for Variant1 and [NEGATIVE],
    [POSITIVE] to 0, 1 for Variant2; any other label is left as it is. *)
Theorem label_vocabulary_is_cell_literal (predictions : list response) :
  preds_variant1 predictions
  = (df <- build_df new_row_variant1 predictions ;;
     Ok (map vocabulary_variant1 (map label df))) /\
  preds_variant2 predictions
  = (df2 <- build_df new_row_variant2 predictions ;;
     Ok (map vocabulary_variant2 (map label df2))).
Proof.
  unfold preds_variant1, preds_variant2. split.
  - destruct (build_df new_row_variant1 predictions) as [df|cls]; simpl;
      [|reflexivity].
    rewrite map_label_replace. f_equal.
    apply map_ext. exact replace_cell_variant1.
  - destruct (build_df new_row_variant2 predictions) as [df|cls]; simpl;
      [|reflexivity].
    rewrite map_label_replace. f_equal.
    apply map_ext. exact replace_cell_variant2.
Qed.

(** ** The loop that builds the prediction dataframe *)

Section BuildDf.

Variable new_row : response -> result (list row).

Lemma loop_raises (p : response) (rest : list response) (cls : string) :
  new_row p = Raise cls ->
  forall (todo : list response) (df : list row),
    todo <> [] -> for_each (loop_body new_row (p :: rest)) todo df = Raise cls.
Proof.
  intros Hp [|x todo] df Hne; [congruence|].
  simpl. unfold loop_body at 1. simpl. rewrite Hp. reflexivity.
Qed.

Lemma loop_appends (p : response) (rest : list response) (rows : list row) :
  new_row p = Ok rows ->
  forall (todo : list response) (df : list row),
    for_each (loop_body new_row (p :: rest)) todo df
    = Ok (df ++ concat (repeat rows (length todo)))%list.
Proof.
  intros Hp todo.
  induction todo as [|x todo IH]; intros df; simpl.
  - now rewrite app_nil_r.
  - unfold loop_body at 1. simpl. rewrite Hp. simpl.
    rewrite IH, app_assoc. reflexivity.
Qed.

End BuildDf.

(** C9. Whatever the other responses are, the dataframe is made of the
    rows selected from [predictions[0]], once per element of the list:
    lists with the same first response and the same length give the same
    dataframe. *)
Theorem build_df_reads_first_response_only
    (new_row : response -> result (list row))
    (p : response) (rest rest' : list response) :
  length rest = length rest' ->
  build_df new_row (p :: rest) = build_df new_row (p :: rest') /\
  build_df new_row (p :: rest)
  = (rows <- new_row p ;; Ok (concat (repeat rows (S (length rest))))).
Proof.
  intros Hlen.
  assert (Hshape : forall others : list response,
             build_df new_row (p :: others)
             = (rows <- new_row p ;;
                Ok (concat (repeat rows (S (length others)))))).
  { intros others. unfold build_df.
    destruct (new_row p) as [rows|cls] eqn:Hp.
    - rewrite (loop_appends new_row p others rows Hp). reflexivity.
    - rewrite (loop_raises new_row p others cls Hp); [reflexivity | discriminate]. }
  split; [|apply Hshape].
  rewrite (Hshape rest), (Hshape rest'), Hlen. reflexivity.
Qed.

(** Two responses, the second one well-formed or not: both rows come from
    the first. *)
Lemma build_df_reads_first_response_only_witness :
  build_df new_row_variant1
    [response_of "LABEL_1" (98 # 100); response_of "LABEL_2" (7 # 10)]
  = build_df new_row_variant1
      [response_of "LABEL_1" (98 # 100); malformed] /\
  build_df new_row_variant1
    [response_of "LABEL_1" (98 # 100); response_of "LABEL_2" (7 # 10)]
  = Ok [mk_row (CStr "LABEL_1") (CNum (98 # 100));
        mk_row (CStr "LABEL_1") (CNum (98 # 100))].
Proof.
  apply (build_df_reads_first_response_only new_row_variant1
           (response_of "LABEL_1" (98 # 100))
           [response_of "LABEL_2" (7 # 10)] [malformed]).
  reflexivity.
Defined.

(** ** The first variant, from responses to accuracy *)

Lemma pd_eq_refl (c : cell) : pd_eq c c = negb (isnull c).
Proof.
  destruct c as [s|q| |]; unfold pd_eq; simpl; try reflexivity.
  - apply String.eqb_refl.
  - apply Qeq_bool_iff. reflexivity.
Qed.

(** A cell read from a field is null exactly for [null]. *)
Lemma cell_of_isnull (st : storage) (v : scalar) :
  isnull (cell_of st (Some v)) = true <-> v = SNull.
Proof.
  destruct v as [|b|q|s], st; simpl; split; congruence.
Qed.

(** What a response of the first variant contributes: the row of its
    first object, unless the score of that row is null, and then
    nothing. *)
Lemma new_row_variant1_rows (body : response) (rows : list row) :
  new_row_variant1 body = Ok rows ->
  exists (fields : record) (others : list item) (s : scalar),
    json_loads body = Ok (JArray (IObject fields :: others)) /\
    lookup_field "score" fields = Some s /\
    (s = SNull -> rows = []) /\
    (s <> SNull -> rows = [row_of_fields fields]).
Proof.
  unfold new_row_variant1. intros H.
  apply bind_ok in H as (doc & Hdoc & H).
  apply bind_ok in H as (d & Hd & H).
  apply bind_ok in H as (tmp_df & Htmp & H).
  assert (Hobj : exists fields, d = IObject fields
                                /\ has_key "score" fields = true
                                /\ tmp_df = [row_of_fields fields]).
  { destruct d as [[| | |[|? ?]]|fields|[|? ?]]; simpl in Htmp;
      try discriminate.
    exists fields. destruct (has_key "score" fields); [|discriminate].
    injection Htmp as <-. auto. }
  destruct Hobj as (fields & -> & Hkey & ->).
  assert (Hitems : exists others, doc = JArray (IObject fields :: others)).
  { destruct doc as [[| | |[|? ?]]|?|[|first others]]; simpl in Hd;
      try discriminate.
    injection Hd as ->. now exists others. }
  destruct Hitems as (others & ->).
  unfold has_key in Hkey.
  destruct (lookup_field "score" fields) as [s|] eqn:Hscore; [|discriminate].
  exists fields, others, s. split; [exact Hdoc|]. split; [exact Hscore|].
  unfold select_max_score in H. simpl in H. rewrite pd_eq_refl in H.
  rewrite Hscore in H.
  pose proof (cell_of_isnull
                (inferred (map (fun kv : string * scalar => Some kv.2) fields)) s)
    as Hnull.
  destruct (isnull (cell_of _ (Some s))); simpl in H; injection H as <-.
  - split; [reflexivity|]. intros Hs. elim Hs. now apply Hnull.
  - split; [|reflexivity]. intros Hs. apply Hnull in Hs. discriminate.
Qed.

Lemma length_concat_repeat {A} (rows : list A) (n : nat) :
  length rows = 1%nat -> length (concat (repeat rows n)) = n.
Proof.
  intros Hone. induction n as [|n IH]; simpl; [reflexivity|].
  rewrite length_app, Hone, IH. reflexivity.
Qed.

(** With as many predicted labels as expected labels, the evaluation of
    Variant1 ends in the quotient of the correct rows. *)
Lemma evaluate_variant1_ratio (predictions : list response)
    (sentiment preds : list cell) :
  sentiment <> [] ->
  length preds = length sentiment ->
  preds_variant1 predictions = Ok preds ->
  evaluate_variant1 predictions sentiment
  = Ok (quotient (Z.of_nat (correct_count preds (groundtruth_labels sentiment)))
                 (Z.of_nat (length sentiment))).
Proof.
  intros Hne Hlen Hpreds.
  unfold evaluate_variant1. rewrite Hpreds. simpl.
  assert (Hlabels : length (groundtruth_labels sentiment) = length sentiment)
    by apply length_map.
  rewrite <- Hlabels. apply accuracy_ratio.
  - destruct sentiment; [congruence | discriminate].
  - now rewrite Hlabels.
Qed.

(** ** Choice of the optimizer *)

(** C10. [train_model] trains with SGD exactly when its [optimizer]
    argument is the string [sgd]; for any other string, [SGD] of the call
    site included, it trains with Adam, and no string makes it raise. *)
Theorem optimizer_is_sgd_only_for_lowercase_sgd :
  (forall optimizer : string,
     exists o, Experiment.select_optimizer optimizer = Ok o /\
               (Experiment.is_sgd o = true <-> optimizer = "sgd") /\
               (optimizer <> "sgd" -> o = Experiment.Adam Experiment.lr)) /\
  (exists setup,
     Experiment.first_experiment = Ok setup /\
     Experiment.logged_optimizer setup = "SGD" /\
     Experiment.used_optimizer setup = Experiment.Adam Experiment.lr).
Proof.
  split.
  - intros optimizer. unfold Experiment.select_optimizer.
    destruct (String.eqb_spec optimizer "sgd") as [->|Hne].
    + eexists; split; [reflexivity|]. split; [split; reflexivity|].
      intros H; congruence.
    + eexists; split; [reflexivity|]. split; [|reflexivity].
      split; [discriminate | intros H; congruence].
  - eexists. split; [reflexivity|]. split; reflexivity.
Qed.

(** ** Requests issued by the traffic-shifting cells *)

Section HostingFacts.

Variable remote : Type.
Variable sm_update :
  string -> list desired_weight -> remote -> remote * result unit.
Variable sm_describe : string -> remote -> result (list variant_summary).
Variable elapse : nat -> remote -> remote.

Local Abbreviation update := (update_endpoint_weights_and_capacities remote sm_update).
Local Abbreviation reported := (reported_weights remote sm_describe).
Local Abbreviation wait := (endpoint_update_wait remote sm_describe elapse).
Local Abbreviation shift := (shiftTraffic remote sm_update sm_describe elapse).
Local Abbreviation rollout := (progressiveRollout remote sm_update sm_describe elapse).

Lemma updates_in_app (cs ds : list api_call) :
  updates_in (cs ++ ds) = (updates_in cs ++ updates_in ds)%list.
Proof. apply List.filter_app. Qed.

Lemma update_sends (ep : string) (desired : list desired_weight)
    (w : world remote) :
  calls (update ep desired w).1
  = (calls w ++ [UpdateEndpointWeightsAndCapacities ep desired])%list.
Proof.
  unfold update_endpoint_weights_and_capacities, send. simpl.
  destruct (sm_update ep desired (service w)); reflexivity.
Qed.

Lemma update_answer (ep : string) (desired : list desired_weight)
    (w : world remote) :
  service (update ep desired w).1 = (sm_update ep desired (service w)).1 /\
  (update ep desired w).2 = (sm_update ep desired (service w)).2.
Proof.
  unfold update_endpoint_weights_and_capacities, send. simpl.
  destruct (sm_update ep desired (service w)); split; reflexivity.
Qed.

(** The wait only describes the endpoint. *)
Lemma wait_sends_no_update (polls interval : nat) (ep : string)
    (target : gmap string Z) (w : world remote) :
  updates_in (calls (wait polls interval ep target w).1) = updates_in (calls w).
Proof.
  revert w. induction polls as [|polls IH]; intros w; simpl;
    unfold currentWeights;
    destruct (reported ep (service w)) as [observed|cls]; simpl;
    try (rewrite updates_in_app; simpl; apply app_nil_r);
    destruct (decide (observed = target)); simpl;
    try (rewrite updates_in_app; simpl; apply app_nil_r).
  unfold seq, sleep. simpl. rewrite IH. simpl.
  rewrite updates_in_app. simpl. apply app_nil_r.
Qed.

(** When the wait returns, the weights the service reports are the
    target. *)
Lemma wait_returns_at_target (polls interval : nat) (ep : string)
    (target : gmap string Z) (w w' : world remote) :
  wait polls interval ep target w = (w', Ok tt) ->
  reported ep (service w') = Ok target.
Proof.
  revert w. induction polls as [|polls IH]; intros w; simpl;
    unfold currentWeights;
    destruct (reported ep (service w)) as [observed|cls] eqn:Hobs;
    try discriminate;
    destruct (decide (observed = target)) as [->|Hne];
    try (intros [= <-]; simpl; exact Hobs);
    try discriminate.
  unfold seq, sleep. simpl. apply IH.
Qed.

(** When no poll of the budget sees the target, the wait times out. *)
Lemma wait_times_out (polls interval : nat) (ep : string)
    (target : gmap string Z) (w : world remote) :
  (forall i, (i <= polls)%nat ->
     exists observed,
       reported ep (Nat.iter i (elapse interval) (service w)) = Ok observed /\
       observed <> target) ->
  (wait polls interval ep target w).2 = Raise "RolloutTimeoutError".
Proof.
  revert w. induction polls as [|polls IH]; intros w Hnever;
    destruct (Hnever 0%nat ltac:(lia)) as (observed & Hobs & Hne);
    simpl in Hobs; simpl; unfold currentWeights; rewrite Hobs;
    destruct (decide (observed = target)) as [Heq|_]; try contradiction;
    [reflexivity|].
  unfold seq, sleep. simpl. apply IH. simpl.
  intros i Hi. rewrite <- Nat.iter_succ_r. apply Hnever. lia.
Qed.

(** The wait lets time pass, a polling interval at a time, and does
    nothing else to the service. *)
Lemma wait_only_elapses (polls interval : nat) (ep : string)
    (target : gmap string Z) (w : world remote) :
  exists k : nat,
    (k <= polls)%nat /\
    service (wait polls interval ep target w).1
    = Nat.iter k (elapse interval) (service w).
Proof.
  revert w. induction polls as [|polls IH]; intros w; simpl;
    unfold currentWeights;
    destruct (reported ep (service w)) as [observed|cls]; simpl;
    try (exists 0%nat; split; [lia | reflexivity]);
    destruct (decide (observed = target)); simpl;
    try (exists 0%nat; split; [lia | reflexivity]).
  unfold seq, sleep. simpl.
  destruct (IH (mk_world (elapse interval (service w))
                         (calls w ++ [DescribeEndpoint ep]))) as (k & Hk & Hs).
  exists (S k). split; [lia|]. rewrite Hs. simpl.
  symmetry. apply (Nat.iter_succ_r k (elapse interval)).
Qed.

Lemma shift_sends_one_update (ep : string) (desired : list desired_weight)
    (interval max_wait : nat) (w : world remote) :
  updates_in (calls (shift ep desired interval max_wait w).1)
  = (updates_in (calls w)
     ++ [UpdateEndpointWeightsAndCapacities ep desired])%list.
Proof.
  unfold shiftTraffic, seq.
  pose proof (update_sends ep desired w) as Hsent.
  destruct (update ep desired w) as [w1 [[]|cls]]; simpl in Hsent.
  - rewrite wait_sends_no_update, Hsent, updates_in_app. reflexivity.
  - simpl. rewrite Hsent, updates_in_app. reflexivity.
Qed.

Lemma rollout_ok_updates (ep : string) (interval max_wait pause : nat)
    (steps : list (list desired_weight)) (w w1 : world remote) :
  rollout ep steps interval max_wait pause w = (w1, Ok tt) ->
  updates_in (calls w1)
  = (updates_in (calls w)
     ++ map (UpdateEndpointWeightsAndCapacities ep) steps)%list.
Proof.
  revert w. induction steps as [|step later IH]; intros w; simpl.
  - unfold ret. intros [= <-]. now rewrite app_nil_r.
  - unfold seq at 1.
    pose proof (shift_sends_one_update ep step interval max_wait w) as Hone.
    destruct (shift ep step interval max_wait w) as [w2 [[]|cls]];
      [|discriminate].
    unfold seq, sleep. simpl. intros Hrest.
    rewrite (IH _ Hrest). simpl. simpl in Hone.
    rewrite Hone, <- app_assoc. reflexivity.
Qed.

Lemma rollout_app (ep : string) (interval max_wait pause : nat)
    (pre rest : list (list desired_weight)) (w w1 : world remote) :
  rollout ep pre interval max_wait pause w = (w1, Ok tt) ->
  rollout ep (pre ++ rest) interval max_wait pause w
  = rollout ep rest interval max_wait pause w1.
Proof.
  revert w. induction pre as [|step later IH]; intros w; simpl.
  - unfold ret. now intros [= <-].
  - unfold seq at 1 3.
    destruct (shift ep step interval max_wait w) as [w2 [[]|cls]];
      [|discriminate].
    unfold seq, sleep. simpl. apply IH.
Qed.

(** C3. Once the update has been accepted, [shiftTraffic] returns
    normally only in a state where the weights reported for the
    endpoint are exactly the target mapping, and it fails with
    [RolloutTimeoutError] when no poll within [max_wait] sees the
    target. *)
Theorem shiftTraffic_returns_only_at_target
    (ep : string) (desired : list desired_weight)
    (interval max_wait : nat) (w : world remote) (accepted : remote) :
  sm_update ep desired (service w) = (accepted, Ok tt) ->
  ((shift ep desired interval max_wait w).2 = Ok tt ->
   reported ep (service (shift ep desired interval max_wait w).1)
   = Ok (target_mapping desired)) /\
  ((forall i, (i <= poll_budget interval max_wait)%nat ->
      exists observed,
        reported ep (Nat.iter i (elapse interval) accepted) = Ok observed /\
        observed <> target_mapping desired) ->
   (shift ep desired interval max_wait w).2 = Raise "RolloutTimeoutError").
Proof.
  intros Hacc.
  destruct (update_answer ep desired w) as [Hs Hr].
  rewrite Hacc in Hs, Hr. simpl in Hs, Hr.
  unfold shiftTraffic, seq.
  destruct (update ep desired w) as [w1 r1]. simpl in Hs, Hr. subst r1.
  split.
  - destruct (wait _ interval ep (target_mapping desired) w1)
      as [w' [[]|cls]] eqn:Hwait; simpl; [|discriminate].
    intros _. exact (wait_returns_at_target _ _ _ _ _ _ Hwait).
  - intros Hnever. apply wait_times_out. rewrite Hs. exact Hnever.
Qed.

(** C4, amended. Whatever variant names the weights carry, the cell
    sends exactly one update request with them to the control plane and
    ends as the service answers: it checks no name itself. *)
Theorem weight_update_is_sent_unchecked
    (ep : string) (desired : list desired_weight) (w : world remote) :
  calls (update ep desired w).1
  = (calls w ++ [UpdateEndpointWeightsAndCapacities ep desired])%list /\
  service (update ep desired w).1 = (sm_update ep desired (service w)).1 /\
  (update ep desired w).2 = (sm_update ep desired (service w)).2.
Proof.
  split; [apply update_sends | apply update_answer].
Qed.

(** C5, amended. When the steps before a step succeed and that step
    fails, the run ends in the world the failing step left and with
    that step's own exception; the updates sent are those of the steps
    up to the failing one, in order, and nothing else: no later step,
    no rollback. The service is left as the failing step left it: in
    the state in which it refused the step's update, or, when it
    accepted the update and the wait failed, in the state it accepted
    it in, some polling intervals later. *)
Theorem progressiveRollout_stops_at_failing_step
    (ep : string) (interval max_wait pause : nat)
    (pre : list (list desired_weight)) (step : list desired_weight)
    (post : list (list desired_weight))
    (w w1 w' : world remote) (cls : string) :
  rollout ep pre interval max_wait pause w = (w1, Ok tt) ->
  shift ep step interval max_wait w1 = (w', Raise cls) ->
  rollout ep (pre ++ step :: post) interval max_wait pause w
  = (w', Raise cls) /\
  updates_in (calls w')
  = (updates_in (calls w)
     ++ map (UpdateEndpointWeightsAndCapacities ep) (pre ++ [step]))%list /\
  match sm_update ep step (service w1) with
  | (refused, Raise cls') => service w' = refused /\ cls = cls'
  | (accepted, Ok _) =>
      exists k : nat,
        (k <= poll_budget interval max_wait)%nat /\
        service w' = Nat.iter k (elapse interval) accepted
  end.
Proof.
  intros Hpre Hstep. split; [|split].
  - rewrite (rollout_app _ _ _ _ _ _ _ _ Hpre). simpl.
    unfold seq at 1. rewrite Hstep. reflexivity.
  - pose proof (shift_sends_one_update ep step interval max_wait w1) as Hone.
    rewrite Hstep in Hone. simpl in Hone.
    rewrite Hone, (rollout_ok_updates _ _ _ _ _ _ _ Hpre).
    rewrite map_app, <- app_assoc. reflexivity.
  - destruct (update_answer ep step w1) as [Hs Hr].
    unfold shiftTraffic, seq in Hstep.
    destruct (update ep step w1) as [w2 r2]. simpl in Hs, Hr.
    destruct (sm_update ep step (service w1)) as [s [[]|cls']];
      simpl in Hs, Hr; subst r2.
    + destruct (wait_only_elapses (poll_budget interval max_wait) interval ep
                  (target_mapping step) w2) as (k & Hk & Hw).
      rewrite Hstep in Hw. simpl in Hw.
      exists k. split; [exact Hk|]. now rewrite Hw, Hs.
    + injection Hstep as <- <-. split; [exact Hs | reflexivity].
Qed.

End HostingFacts.

(** ** Deleting the endpoint *)

Section Deletion.

Variable remote : Type.
Variable sm_delete : string -> remote -> remote * result unit.

(** The cell passes the request on and ends as the service answers; the
    notebook itself keeps no record of what has been deleted. *)
Lemma delete_endpoint_forwards (endpoint_name : string) (w : world remote) :
  calls (delete_endpoint remote sm_delete endpoint_name w).1
  = (calls w ++ [DeleteEndpoint endpoint_name])%list /\
  service (delete_endpoint remote sm_delete endpoint_name w).1
  = (sm_delete endpoint_name (service w)).1 /\
  (delete_endpoint remote sm_delete endpoint_name w).2
  = (sm_delete endpoint_name (service w)).2.
Proof.
  unfold delete_endpoint, send. simpl.
  destruct (sm_delete endpoint_name (service w)); repeat split.
Qed.

End Deletion.

(** ** Runs on the reference service *)

(** The shift to 75/25 on a service that applies updates after 10
    seconds, polled every 5 seconds for at most 30, and on one that takes
    100 seconds. *)
Lemma shiftTraffic_returns_only_at_target_witness :
  reported_weights Sim.state Sim.describe "E"
    (service (sim_shiftTraffic "E" Notebook.weights_75_25 5 30
                (created_endpoint 10)).1)
  = Ok (target_mapping Notebook.weights_75_25) /\
  (sim_shiftTraffic "E" Notebook.weights_75_25 5 30 (created_endpoint 100)).2
  = Raise "RolloutTimeoutError".
Proof.
  split.
  - refine (proj1 (shiftTraffic_returns_only_at_target Sim.state Sim.update
                     Sim.describe Sim.elapse "E" Notebook.weights_75_25 5 30
                     (created_endpoint 10) _ eq_refl) _).
    run_cells.
  - refine (proj2 (shiftTraffic_returns_only_at_target Sim.state Sim.update
                     Sim.describe Sim.elapse "E" Notebook.weights_75_25 5 30
                     (created_endpoint 100) _ eq_refl) _).
    intros i Hi.
    do 7 (destruct i as [|i];
          [exists (dict_of [("Variant1", 1); ("Variant2", 1)]); split;
           [run_cells | apply (bool_decide_eq_false_1 _); run_cells]|]).
    vm_compute in Hi. lia.
Defined.

(** C4, as stated, fails: a request naming [Variant3], which the endpoint
    does not host, is sent to the control plane all the same. *)
Lemma unknown_variant_update_is_sent :
  ~ ((sim_update "E" [mk_desired 75 "Variant1"; mk_desired 25 "Variant3"]
        (created_endpoint 10)).2 = Raise "UnknownVariantError" /\
     updates_in
       (calls (sim_update "E" [mk_desired 75 "Variant1"; mk_desired 25 "Variant3"]
                 (created_endpoint 10)).1)
     = updates_in (calls (created_endpoint 10))).
Proof. intros [_ Hsent]. vm_compute in Hsent. discriminate Hsent. Qed.

(** Three steps, the second naming a variant the endpoint does not host:
    the run ends there, two updates were sent, and the service is in
    the state in which it refused the second. *)
Lemma progressiveRollout_stops_at_failing_step_witness :
  sim_progressiveRollout "E"
    ([[mk_desired 25 "Variant1"; mk_desired 75 "Variant2"]]
     ++ [mk_desired 0 "Variant1"; mk_desired 100 "Variant3"]
     :: [Notebook.weights_1_0])
    5 30 Notebook.pause_between_steps (created_endpoint 10)
  = ((sim_shiftTraffic "E" [mk_desired 0 "Variant1"; mk_desired 100 "Variant3"]
        5 30
        (sim_progressiveRollout "E"
           [[mk_desired 25 "Variant1"; mk_desired 75 "Variant2"]]
           5 30 Notebook.pause_between_steps (created_endpoint 10)).1).1,
     Raise "ClientError") /\
  updates_in
    (calls
       (sim_shiftTraffic "E" [mk_desired 0 "Variant1"; mk_desired 100 "Variant3"]
          5 30
          (sim_progressiveRollout "E"
             [[mk_desired 25 "Variant1"; mk_desired 75 "Variant2"]]
             5 30 Notebook.pause_between_steps (created_endpoint 10)).1).1)
  = (updates_in (calls (created_endpoint 10))
     ++ map (UpdateEndpointWeightsAndCapacities "E")
          ([[mk_desired 25 "Variant1"; mk_desired 75 "Variant2"]]
           ++ [[mk_desired 0 "Variant1"; mk_desired 100 "Variant3"]]))%list /\
  match
    Sim.update "E" [mk_desired 0 "Variant1"; mk_desired 100 "Variant3"]
      (service
         (sim_progressiveRollout "E"
            [[mk_desired 25 "Variant1"; mk_desired 75 "Variant2"]]
            5 30 Notebook.pause_between_steps (created_endpoint 10)).1)
  with
  | (refused, Raise cls') =>
      service
        (sim_shiftTraffic "E"
           [mk_desired 0 "Variant1"; mk_desired 100 "Variant3"] 5 30
           (sim_progressiveRollout "E"
              [[mk_desired 25 "Variant1"; mk_desired 75 "Variant2"]]
              5 30 Notebook.pause_between_steps (created_endpoint 10)).1).1
      = refused /\ "ClientError" = cls'
  | (accepted, Ok _) =>
      exists k : nat,
        (k <= poll_budget 5 30)%nat /\
        service
          (sim_shiftTraffic "E"
             [mk_desired 0 "Variant1"; mk_desired 100 "Variant3"] 5 30
             (sim_progressiveRollout "E"
                [[mk_desired 25 "Variant1"; mk_desired 75 "Variant2"]]
                5 30 Notebook.pause_between_steps (created_endpoint 10)).1).1
        = Nat.iter k (Sim.elapse 5) accepted
  end.
Proof.
  apply (progressiveRollout_stops_at_failing_step Sim.state Sim.update
           Sim.describe Sim.elapse "E" 5 30 Notebook.pause_between_steps
           [[mk_desired 25 "Variant1"; mk_desired 75 "Variant2"]]
           [mk_desired 0 "Variant1"; mk_desired 100 "Variant3"]
           [Notebook.weights_1_0] (created_endpoint 10)).
  - run_cells.
  - run_cells.
Defined.

(** C5, as stated, fails twice over. A run that fails at its first step
    and a run that fails at its second step surface the same exception,
    so no step index can be read from it. And the weights of the
    earlier steps need not be the ones in effect: after a first step to
    25/75, a second step that sets Variant1 to 0 and times out in its
    wait leaves the weights 0/75. *)
Lemma rollout_failure_has_no_index_and_moves_weights :
  ~ (exists index_of : string -> nat,
       forall (steps : list (list desired_weight)) (k : nat) (cls : string),
         rollout_fails_at (created_endpoint 10) steps k cls ->
         index_of cls = k) /\
  ~ (forall (first second : list desired_weight) (cls : string),
       rollout_fails_at (created_endpoint 10) [first; second] 2 cls ->
       reported_weights Sim.state Sim.describe "E"
         (service (sim_progressiveRollout "E" [first; second] 5 30
                     Notebook.pause_between_steps (created_endpoint 10)).1)
       = Ok (target_mapping first)).
Proof.
  split.
  - intros [index_of Hindex].
    assert (H1 : index_of "ClientError" = 1%nat).
    { apply (Hindex [[mk_desired 0 "Variant1"; mk_desired 100 "Variant3"]]).
      exists [], [mk_desired 0 "Variant1"; mk_desired 100 "Variant3"], [].
      do 2 eexists. repeat split; run_cells. }
    assert (H2 : index_of "ClientError" = 2%nat).
    { apply (Hindex [[mk_desired 25 "Variant1"; mk_desired 75 "Variant2"];
                     [mk_desired 0 "Variant1"; mk_desired 100 "Variant3"]]).
      exists [[mk_desired 25 "Variant1"; mk_desired 75 "Variant2"]],
             [mk_desired 0 "Variant1"; mk_desired 100 "Variant3"], [].
      do 2 eexists. repeat split; run_cells. }
    congruence.
  - intros Hkept.
    specialize (Hkept [mk_desired 25 "Variant1"; mk_desired 75 "Variant2"]
                      [mk_desired 0 "Variant1"] "RolloutTimeoutError").
    assert (Hfails : rollout_fails_at (created_endpoint 10)
                       [[mk_desired 25 "Variant1"; mk_desired 75 "Variant2"];
                        [mk_desired 0 "Variant1"]] 2 "RolloutTimeoutError").
    { exists [[mk_desired 25 "Variant1"; mk_desired 75 "Variant2"]],
             [mk_desired 0 "Variant1"], [].
      do 2 eexists. repeat split; run_cells. }
    specialize (Hkept Hfails). vm_compute in Hkept. discriminate Hkept.
Qed.

(** * Further properties of the notebooks' code *)

(** ** Selection of the top-scoring rows *)

Lemma max_from_numeric (xs : list cell) :
  Forall (fun c => exists q : Q, c = CNum q) xs ->
  forall q0 : Q,
    exists m : Q,
      max_from (CNum q0) xs = Ok (CNum m) /\
      (q0 <= m)%Q /\
      (forall q, In (CNum q) xs -> (q <= m)%Q) /\
      (CNum m = CNum q0 \/ In (CNum m) xs).
Proof.
  induction 1 as [|c xs [q ->] Hxs IH]; intros q0.
  - exists q0. simpl. repeat split; auto using Qle_refl. intros q [].
  - simpl. destruct (Qle_bool q q0) eqn:Hle; simpl.
    + destruct (IH q0) as (m & Hm & Hq0 & Hall & Hin).
      exists m. repeat split; auto.
      * intros q' [[= <-] | Hq']; [|auto].
        apply Qle_bool_iff in Hle. eapply Qle_trans; eauto.
      * destruct Hin; auto.
    + destruct (IH q) as (m & Hm & Hq & Hall & Hin).
      assert (Hlt : (q0 < q)%Q).
      { apply Qnot_le_lt. intros Hc. apply Qle_bool_iff in Hc. congruence. }
      exists m. repeat split; auto.
      * eapply Qle_trans; [apply Qlt_le_weak; exact Hlt | exact Hq].
      * intros q' [[= <-] | Hq']; auto.
      * destruct Hin as [Hin | Hin]; auto.
Qed.

(** X1. On a non-empty frame of numeric scores, the row selection
    succeeds and keeps exactly the rows whose score equals the largest
    score of the frame, at least one of them. *)
Theorem select_max_score_keeps_top_rows (tmp_df : list row) :
  tmp_df <> [] ->
  numeric_scores tmp_df ->
  exists (top : Q) (rows : list row),
    select_max_score tmp_df = Ok rows /\
    rows <> [] /\
    (forall r q, In r tmp_df -> score r = CNum q -> (q <= top)%Q) /\
    (forall r, In r rows <->
               In r tmp_df /\ exists q, score r = CNum q /\ (q == top)%Q).
Proof.
  intros Hne Hnum.
  destruct tmp_df as [|r0 rest]; [congruence|].
  inversion Hnum as [|? ? [q0 Hq0] Hrest]; subst.
  assert (Hcells : Forall (fun c => exists q : Q, c = CNum q) (map score rest)).
  { apply List.Forall_map. exact Hrest. }
  destruct (max_from_numeric _ Hcells q0) as (m & Hm & Hq0m & Hall & Hin).
  unfold select_max_score. cbn [map py_max]. rewrite Hq0, Hm. cbn [Py.bind].
  assert (Hsel : forall r,
             In r (List.filter (fun r => pd_eq (score r) (CNum m)) (r0 :: rest))
             <-> In r (r0 :: rest) /\ exists q, score r = CNum q /\ (q == m)%Q).
  { intros r. rewrite List.filter_In. split.
    - intros [Hr Heq]. split; [exact Hr|].
      destruct (score r) as [s|q| |]; unfold pd_eq in Heq; simpl in Heq;
        try discriminate.
      exists q. split; [reflexivity | now apply Qeq_bool_iff].
    - intros [Hr (q & Hq & Heq)]. split; [exact Hr|].
      rewrite Hq. unfold pd_eq. simpl. now apply Qeq_bool_iff. }
  exists m, (List.filter (fun r => pd_eq (score r) (CNum m)) (r0 :: rest)).
  split; [reflexivity|]. split; [|split; [|exact Hsel]].
  - assert (Hwit : exists r, In r (r0 :: rest) /\ score r = CNum m).
    { destruct Hin as [Heq | Hin].
      - exists r0. split; [now left | congruence].
      - apply List.in_map_iff in Hin as (r & Hr & Hin).
        exists r. split; [now right | exact Hr]. }
    destruct Hwit as (r & Hr & Hscore).
    intros Hnil.
    assert (Hrin : In r (List.filter (fun r => pd_eq (score r) (CNum m))
                           (r0 :: rest))).
    { apply Hsel. split; [exact Hr|]. exists m. split; [exact Hscore | reflexivity]. }
    rewrite Hnil in Hrin. exact Hrin.
  - intros r q [<- | Hr] Hscore.
    + rewrite Hq0 in Hscore. injection Hscore as <-. exact Hq0m.
    + apply Hall. rewrite <- Hscore. now apply List.in_map.
Qed.

(** Two labels, the second one scoring higher. *)
Lemma select_max_score_keeps_top_rows_witness :
  exists (top : Q) (rows : list row),
    select_max_score [mk_row (CStr "NEGATIVE") (CNum (1 # 10));
                      mk_row (CStr "POSITIVE") (CNum (9 # 10))] = Ok rows /\
    rows <> [] /\
    (forall r q,
       In r [mk_row (CStr "NEGATIVE") (CNum (1 # 10));
             mk_row (CStr "POSITIVE") (CNum (9 # 10))] ->
       score r = CNum q -> (q <= top)%Q) /\
    (forall r, In r rows <->
               In r [mk_row (CStr "NEGATIVE") (CNum (1 # 10));
                     mk_row (CStr "POSITIVE") (CNum (9 # 10))] /\
               exists q, score r = CNum q /\ (q == top)%Q).
Proof.
  apply (select_max_score_keeps_top_rows
           [mk_row (CStr "NEGATIVE") (CNum (1 # 10));
            mk_row (CStr "POSITIVE") (CNum (9 # 10))]).
  - discriminate.
  - repeat constructor; simpl; eauto.
Defined.

(** ** Rows of the first variant's dataframe *)

Lemma in_concat_repeat {A} (x y : A) (n : nat) :
  In y (concat (repeat [x] n)) -> y = x.
Proof.
  induction n as [|n IH]; simpl; [intros [] | intros [<- | H]; auto].
Qed.

Lemma concat_repeat_nil {A} (n : nat) : concat (repeat (@nil A) n) = [].
Proof. induction n as [|n IH]; simpl; [reflexivity | exact IH]. Qed.

(** X2. The dataframe of Variant1, when it is built, has exactly one row
    per response, each of them the row of the first object of the first
    response; unless the score of that object is [null]: then every
    selection is empty and the dataframe has no row at all. *)
Theorem variant1_one_row_per_response
    (predictions : list response) (first : response) (df : list row) :
  hd_error predictions = Some first ->
  build_df new_row_variant1 predictions = Ok df ->
  exists (fields : record) (others : list item) (s : scalar),
    json_loads first = Ok (JArray (IObject fields :: others)) /\
    lookup_field "score" fields = Some s /\
    (s = SNull -> df = []) /\
    (s <> SNull ->
     length df = length predictions /\
     forall r : row, In r df -> r = row_of_fields fields).
Proof.
  intros Hfirst Hdf.
  destruct predictions as [|p rest]; [discriminate|].
  injection Hfirst as ->.
  unfold build_df in Hdf.
  destruct (new_row_variant1 first) as [rows|cls] eqn:Hp.
  - rewrite (loop_appends new_row_variant1 first rest rows Hp) in Hdf.
    injection Hdf as <-. simpl app.
    destruct (new_row_variant1_rows first rows Hp)
      as (fields & others & s & Hdoc & Hscore & Hnull & Hrow).
    exists fields, others, s.
    split; [exact Hdoc|]. split; [exact Hscore|]. split.
    + intros Hs. rewrite (Hnull Hs). apply (concat_repeat_nil (S (length rest))).
    + intros Hs. rewrite (Hrow Hs). split.
      * exact (length_concat_repeat [row_of_fields fields] (S (length rest))
                 eq_refl).
      * intros r Hr. exact (in_concat_repeat _ r (S (length rest)) Hr).
  - rewrite (loop_raises new_row_variant1 first rest cls Hp) in Hdf;
      discriminate.
Qed.

(** Two different responses: two rows, both of the first one. *)
Lemma variant1_one_row_per_response_witness :
  exists (fields : record) (others : list item) (s : scalar),
    json_loads (response_of "LABEL_1" (98 # 100))
    = Ok (JArray (IObject fields :: others)) /\
    lookup_field "score" fields = Some s /\
    (s = SNull ->
     [mk_row (CStr "LABEL_1") (CNum (98 # 100));
      mk_row (CStr "LABEL_1") (CNum (98 # 100))] = []) /\
    (s <> SNull ->
     length [mk_row (CStr "LABEL_1") (CNum (98 # 100));
             mk_row (CStr "LABEL_1") (CNum (98 # 100))]
     = length [response_of "LABEL_1" (98 # 100); response_of "LABEL_2" (7 # 10)] /\
     forall r : row,
       In r [mk_row (CStr "LABEL_1") (CNum (98 # 100));
             mk_row (CStr "LABEL_1") (CNum (98 # 100))] ->
       r = row_of_fields fields).
Proof.
  apply (variant1_one_row_per_response
           [response_of "LABEL_1" (98 # 100); response_of "LABEL_2" (7 # 10)]
           (response_of "LABEL_1" (98 # 100))).
  - reflexivity.
  - reflexivity.
Defined.

(** ** The second variant's vocabulary against the ground truth *)



(** ** The accuracy cell outside equal lengths *)

Lemma count_true_matches (l : cell) (preds : list cell) :
  count_true (map (fun p => cell_eqb p l) preds) = Z.of_nat (matches_of l preds).
Proof.
  unfold matches_of.
  induction preds as [|p preds IH]; [reflexivity|].
  cbn [map List.filter]. rewrite count_true_cons, IH.
  destruct (cell_eqb p l); cbn [length Z.b2z]; lia.
Qed.

(** X4. Against a single expected label the comparison broadcasts: every
    prediction is compared with that label and the sum is divided by 1,
    so the cell returns the number of matching predictions over 1, as a
    float: 2.0 when two of them match. *)
Theorem accuracy_against_single_label (preds : list cell) (l : cell) :
  accuracy preds [l] = Ok (quotient (Z.of_nat (matches_of l preds)) 1).
Proof.
  unfold accuracy.
  assert (Hhits : np_equal preds [l] = Ok (map (fun p => cell_eqb p l) preds)).
  { destruct preds as [|p [|p' preds]]; reflexivity. }
  rewrite Hhits. cbn [Py.bind].
  rewrite true_divide_count by discriminate.
  now rewrite count_true_matches.
Qed.

(** When the numbers of predictions and of expected labels differ and
    neither is 1, the comparison is not made element by element and
    [sum] raises. *)
Lemma accuracy_mismatch (preds labels : list cell) :
  length preds <> length labels ->
  length preds <> 1%nat ->
  length labels <> 1%nat ->
  accuracy preds labels = Raise "TypeError".
Proof.
  intros Hne Hp Hl. unfold accuracy, np_equal.
  destruct (Nat.eqb_spec (length preds) (length labels)) as [Heq|_];
    [contradiction|].
  destruct preds as [|p [|p' preds]], labels as [|l [|l' labels]];
    simpl in *; try congruence; reflexivity.
Qed.

(** ** Metrics logged while training *)

Section TrainingFacts.

Context `{T : Torch}.

Import Training.

Lemma metric_steps_app (xs ys : list log_record) :
  metric_steps (xs ++ ys) = (metric_steps xs ++ metric_steps ys)%list.
Proof. unfold metric_steps. apply flat_map_app. Qed.

Lemma evaluate_batches_counts (model : net) (scores : input -> list Q) :
  (forall g xs, model_call model g xs = (g, Ok (map scores xs))) ->
  forall (batches : list (list (input * Z))) (g g' : rng)
         (loss loss' : pynum) (correct correct' : Z),
    evaluate_batches model g loss correct batches = (g', Ok (loss', correct')) ->
    correct' = correct + Z.of_nat (correctly_classified scores (concat batches)).
Proof.
  intros Heval.
  assert (Hbatch : forall (batch : list (input * Z)) (pred : list Z),
             traverse argmax (map scores (map fst batch)) = Ok pred ->
             count_equal pred (map snd batch)
             = Z.of_nat (correctly_classified scores batch)).
  { unfold count_equal, correctly_classified.
    induction batch as [|[x t] batch IH]; intros pred Hpred; simpl in Hpred.
    - injection Hpred as <-. reflexivity.
    - apply bind_ok in Hpred as (k & Hk & Hpred).
      apply bind_ok in Hpred as (ks & Hks & [= <-]).
      specialize (IH ks Hks). apply Nat2Z.inj in IH.
      cbn [map combine List.filter fst snd]. rewrite Hk.
      destruct (Z.eqb k t); cbn [length]; rewrite IH; reflexivity. }
  induction batches as [|batch rest IH]; intros g g' loss loss' correct correct'.
  - simpl. intros [= <- <- <-]. unfold correctly_classified. simpl. lia.
  - cbn [evaluate_batches evaluate_batch]. rewrite Heval.
    rewrite !length_map, Nat.eqb_refl.
    destruct (nll_loss_sum _ _) as [l|cls]; cbn [Py.bind]; [|discriminate].
    destruct (traverse argmax _) as [pred|cls] eqn:Hpred; cbn [Py.bind];
      [|discriminate].
    intros Hrest. rewrite (IH _ _ _ _ _ _ Hrest), (Hbatch _ _ Hpred).
    unfold correctly_classified. cbn [concat].
    rewrite List.filter_app, length_app. lia.
Qed.

Lemma correctly_classified_perm (scores : input -> list Q)
    (xs ys : list (input * Z)) :
  Permutation xs ys ->
  correctly_classified scores xs = correctly_classified scores ys.
Proof.
  unfold correctly_classified.
  induction 1 as [|x xs ys _ IH|x y xs|xs ys zs _ IH1 _ IH2]; simpl.
  - reflexivity.
  - destruct (match argmax (scores x.1) with Ok k => Z.eqb k x.2 | Raise _ => false end);
      simpl; now rewrite IH.
  - destruct (match argmax (scores x.1) with Ok k => Z.eqb k x.2 | Raise _ => false end),
             (match argmax (scores y.1) with Ok k => Z.eqb k y.2 | Raise _ => false end);
      reflexivity.
  - now rewrite IH1.
Qed.

Lemma correctly_classified_le (scores : input -> list Q)
    (samples : list (input * Z)) :
  (correctly_classified scores samples <= length samples)%nat.
Proof. unfold correctly_classified. apply List.filter_length_le. Qed.

(** What a call of [log_performance] that returns has written. *)
Lemma log_performance_returns (model model' : net) (l : loader)
    (epoch : Z) (metric_type : string) (s s' : session) :
  log_performance model l epoch metric_type s = (s', Ok model') ->
  exists (g2 : rng) (loss : pynum) (correct : Z) (loss_value accuracy : float),
    evaluate_batches (set_eval model) (iterate l (the_rng s)).1 (PInt 0) 0
      (iterate l (the_rng s)).2 = (g2, Ok (loss, correct)) /\
    percent correct (Z.of_nat (dataset_len l)) = Ok accuracy /\
    model' = set_eval model /\
    run_log s'
    = (run_log s
       ++ [LogMetric (metric_type ++ ":loss") loss_value epoch;
           LogMetric (metric_type ++ ":accuracy") accuracy epoch])%list.
Proof.
  unfold log_performance.
  destruct (iterate l (the_rng s)) as [g1 batches]. cbn [fst snd].
  destruct (evaluate_batches (set_eval model) g1 (PInt 0) 0 batches)
    as [g2 [[loss correct]|cls]]; [|discriminate].
  destruct (div_int loss _) as [loss_value|cls]; [|discriminate].
  destruct (percent correct _) as [accuracy|cls] eqn:Hacc; [|discriminate].
  intros [= <- <-].
  exists g2, loss, correct, loss_value, accuracy.
  repeat split; auto.
  unfold log. cbn [run_log]. now rewrite <- app_assoc.
Qed.

(** A call of [log_performance] that raises has written nothing. *)
Lemma log_performance_raises (model : net) (l : loader)
    (epoch : Z) (metric_type : string) (s s' : session) (cls : string) :
  log_performance model l epoch metric_type s = (s', Raise cls) ->
  run_log s' = run_log s.
Proof.
  unfold log_performance.
  destruct (iterate l (the_rng s)) as [g1 batches].
  destruct (evaluate_batches (set_eval model) g1 (PInt 0) 0 batches)
    as [g2 [[loss correct]|c]]; [|now intros [= <- _]].
  destruct (div_int loss _) as [loss_value|c]; [|now intros [= <- _]].
  destruct (percent correct _) as [accuracy|c]; [discriminate|].
  now intros [= <- _].
Qed.

(** X5. When the network in evaluation mode scores each input on its
    own, the accuracy that [log_performance] logs is 100 times the number
    of samples classified as their target over the size of the dataset,
    however the loader has shuffled and batched the samples; that number
    is at most the number of samples. *)
Theorem log_performance_accuracy_counts_samples
    (model model' : net) (l : loader) (epoch : Z) (metric_type : string)
    (s s' : session) (scores : input -> list Q) (samples : list (input * Z)) :
  (forall g xs, model_call (set_eval model) g xs = (g, Ok (map scores xs))) ->
  Permutation (concat (iterate l (the_rng s)).2) samples ->
  log_performance model l epoch metric_type s = (s', Ok model') ->
  exists loss_value accuracy : float,
    run_log s'
    = (run_log s
       ++ [LogMetric (metric_type ++ ":loss") loss_value epoch;
           LogMetric (metric_type ++ ":accuracy") accuracy epoch])%list /\
    percent (Z.of_nat (correctly_classified scores samples))
            (Z.of_nat (dataset_len l)) = Ok accuracy /\
    (correctly_classified scores samples <= length samples)%nat.
Proof.
  intros Heval Hperm Hrun.
  destruct (log_performance_returns _ _ _ _ _ _ _ Hrun)
    as (g2 & loss & correct & loss_value & accuracy & Hloop & Hacc & _ & Hlog).
  exists loss_value, accuracy.
  split; [exact Hlog|]. split; [|apply correctly_classified_le].
  rewrite (evaluate_batches_counts _ scores Heval _ _ _ _ _ _ _ Hloop) in Hacc.
  rewrite (correctly_classified_perm scores _ _ Hperm) in Hacc. exact Hacc.
Qed.

(** X6. On a loader whose dataset is empty, [log_performance] never
    returns and logs no metric; when the loader yields no batch, what it
    raises is [ZeroDivisionError], from dividing the loss. *)
Theorem log_performance_empty_dataset
    (model : net) (l : loader) (epoch : Z) (metric_type : string) (s : session) :
  dataset_len l = 0%nat ->
  (exists cls, (log_performance model l epoch metric_type s).2 = Raise cls) /\
  run_log (log_performance model l epoch metric_type s).1 = run_log s /\
  ((iterate l (the_rng s)).2 = [] ->
   (log_performance model l epoch metric_type s).2 = Raise "ZeroDivisionError").
Proof.
  intros Hlen. unfold log_performance. rewrite Hlen.
  destruct (iterate l (the_rng s)) as [g1 batches]. cbn [fst snd].
  split; [|split].
  - destruct (evaluate_batches (set_eval model) g1 (PInt 0) 0 batches)
      as [g2 [[loss correct]|cls]]; simpl; eauto.
  - destruct (evaluate_batches (set_eval model) g1 (PInt 0) 0 batches)
      as [g2 [[loss correct]|cls]]; reflexivity.
  - intros ->. reflexivity.
Qed.

Lemma train_epochs_metrics (train_loader test_loader : loader) :
  forall (epochs : list Z) (model model' : net) (s s' : session),
    train_epochs train_loader test_loader model epochs s = (s', Ok model') ->
    metric_steps (run_log s')
    = (metric_steps (run_log s) ++ flat_map epoch_metrics epochs)%list.
Proof.
  induction epochs as [|epoch rest IH]; intros model model' s s'; simpl.
  - intros [= <- _]. now rewrite app_nil_r.
  - destruct (train_epoch train_loader test_loader model epoch s)
      as [s1 [model1|cls]] eqn:Hepoch; [|discriminate].
    intros Hrest. rewrite (IH _ _ _ _ Hrest). clear IH Hrest.
    unfold train_epoch in Hepoch.
    destruct (iterate train_loader (the_rng s)) as [g1 batches].
    destruct (train_batches (set_train model) g1 batches)
      as [g2 [trained|cls]]; [|discriminate].
    destruct (log_performance trained train_loader epoch "Train" _)
      as [s3 [evaluated|cls]] eqn:Htrain; [|discriminate].
    destruct (log_performance_returns _ _ _ _ _ _ _ Htrain)
      as (_ & _ & _ & l1 & a1 & _ & _ & _ & Hlog1).
    destruct (log_performance_returns _ _ _ _ _ _ _ Hepoch)
      as (_ & _ & _ & l2 & a2 & _ & _ & _ & Hlog2).
    rewrite Hlog2, Hlog1. cbn [run_log].
    rewrite !metric_steps_app, <- !app_assoc. reflexivity.
Qed.

Lemma log_confusion_matrices_metrics (model : net) :
  forall (batches : list (list (input * Z))) (s s' : session) (r : result unit),
    log_confusion_matrices model batches s = (s', r) ->
    metric_steps (run_log s') = metric_steps (run_log s).
Proof.
  induction batches as [|batch rest IH]; intros s s' r; simpl.
  - now intros [= <- _].
  - destruct (model_call model (the_rng s) (map fst batch)) as [g1 [output|cls]];
      [|now intros [= <- _]].
    destruct (traverse argmax output) as [pred|cls]; [|now intros [= <- _]].
    intros Hrest. rewrite (IH _ _ _ Hrest). unfold log. cbn [run_log].
    rewrite metric_steps_app. simpl. apply app_nil_r.
Qed.

(** X7. A call of [train_model] that returns has logged, for each epoch
    from 1 to [epochs] in turn, the four metrics [Train:loss],
    [Train:accuracy], [Test:loss] and [Test:accuracy] with the epoch as
    their step, and no other metric; for [epochs] of 0 or less it has
    logged none. *)
Theorem train_model_metrics_per_epoch
    (train_set test_set : dataset) (data_dir optimizer : string)
    (epochs hidden_channels : Z) (s s' : session) :
  train_model train_set test_set data_dir optimizer epochs hidden_channels s
  = (s', Ok tt) ->
  metric_steps (run_log s')
  = (metric_steps (run_log s)
     ++ flat_map epoch_metrics (py_range 1 (epochs + 1)))%list /\
  length (py_range 1 (epochs + 1)) = Z.to_nat epochs.
Proof.
  intros Hrun. split.
  - unfold train_model in Hrun.
    destruct (data_loader train_set 64 true) as [train_loader|cls]; [|discriminate].
    destruct (data_loader test_set 1000 true) as [test_loader|cls]; [|discriminate].
    destruct (new_net hidden_channels 5 (5 # 10) _) as [g model].
    destruct (Experiment.select_optimizer optimizer) as [opt|cls]; [|discriminate].
    destruct (train_epochs train_loader test_loader (with_optimizer model opt) _ _)
      as [s1 [trained|cls]] eqn:Hepochs; [|discriminate].
    destruct (iterate test_loader (the_rng s1)) as [g1 batches].
    rewrite (log_confusion_matrices_metrics _ _ _ _ _ Hrun). cbn [run_log].
    rewrite (train_epochs_metrics _ _ _ _ _ _ _ Hepochs). cbn [run_log].
    unfold log. cbn [run_log]. rewrite !metric_steps_app. simpl.
    now rewrite !app_nil_r.
  - unfold py_range. rewrite length_map, List.length_seq. f_equal. lia.
Qed.

End TrainingFacts.

(** The toy loader, one sample of three misclassified. *)
Lemma log_performance_accuracy_counts_samples_witness :
  exists loss_value accuracy : Q,
    Training.run_log
      (Training.log_performance (T := toy_torch) true toy_loader 1 "Test"
         (Training.mk_session (T := toy_torch) 0%nat [])).1
    = [Training.LogMetric (T := toy_torch) "Test:loss" loss_value 1;
       Training.LogMetric (T := toy_torch) "Test:accuracy" accuracy 1] /\
    Training.percent (T := toy_torch) 2 3 = Ok accuracy /\
    (2 <= 3)%nat.
Proof.
  apply (log_performance_accuracy_counts_samples (T := toy_torch)
           true false toy_loader 1 "Test"
           (Training.mk_session (T := toy_torch) 0%nat [])
           (Training.mk_session (T := toy_torch) 1%nat
              [Training.LogMetric (T := toy_torch) "Test:loss" (0 / 3)%Q 1;
               Training.LogMetric (T := toy_torch) "Test:accuracy"
                 (inject_Z 100 * 2 / 3)%Q 1])
           (fun x => x)
           [([7 # 10; 3 # 10], 0); ([1 # 10; 9 # 10], 1); ([5 # 10; 5 # 10], 1)]).
  - intros g xs. simpl. now rewrite map_id.
  - simpl. apply Permutation_sym, Permutation_cons_append.
  - reflexivity.
Defined.

(** A loader over no sample at all. *)
Lemma log_performance_empty_dataset_witness :
  (exists cls,
     (Training.log_performance (T := toy_torch) true [] 1 "Test"
        (Training.mk_session (T := toy_torch) 0%nat [])).2 = Raise cls) /\
  Training.run_log
    (Training.log_performance (T := toy_torch) true [] 1 "Test"
       (Training.mk_session (T := toy_torch) 0%nat [])).1 = [] /\
  ((@iterate toy_torch [] 0%nat).2 = [] ->
   (Training.log_performance (T := toy_torch) true [] 1 "Test"
      (Training.mk_session (T := toy_torch) 0%nat [])).2
   = Raise "ZeroDivisionError").
Proof.
  apply (log_performance_empty_dataset (T := toy_torch) true [] 1 "Test"
           (Training.mk_session (T := toy_torch) 0%nat [])).
  reflexivity.
Defined.

(** Two epochs on three training samples and one test sample. *)
Lemma train_model_metrics_per_epoch_witness :
  Training.metric_steps
    (Training.run_log
       (Training.train_model (T := toy_torch)
          [([1 # 10; 9 # 10], 1); ([5 # 10; 5 # 10], 1); ([7 # 10; 3 # 10], 0)]
          [([2 # 10; 8 # 10], 1)] "mnist_data" "SGD" 2 3
          (Training.mk_session (T := toy_torch) 0%nat [])).1)
  = [("Train:loss", 1); ("Train:accuracy", 1); ("Test:loss", 1); ("Test:accuracy", 1);
     ("Train:loss", 2); ("Train:accuracy", 2); ("Test:loss", 2); ("Test:accuracy", 2)] /\
  length (Training.py_range 1 (2 + 1)) = Z.to_nat 2.
Proof.
  refine (train_model_metrics_per_epoch (T := toy_torch)
            [([1 # 10; 9 # 10], 1); ([5 # 10; 5 # 10], 1); ([7 # 10; 3 # 10], 0)]
            [([2 # 10; 8 # 10], 1)] "mnist_data" "SGD" 2 3
            (Training.mk_session (T := toy_torch) 0%nat []) _ _).
  vm_compute. reflexivity.
Defined.

(** ** Names of metrics, from logging to analysis *)

Section Splitting.

Import Analysis.

Variable c0 : Ascii.ascii.
Variable sep' : string.

Local Abbreviation sep := (String c0 sep').

Lemma append_assoc_char (piece : string) (c : Ascii.ascii) (rest : string) :
  (piece ++ String c EmptyString) ++ rest = piece ++ String c rest.
Proof.
  induction piece as [|p piece IH]; [reflexivity|].
  change (String p ((piece ++ String c EmptyString) ++ rest)
          = String p (piece ++ String c rest)).
  now f_equal.
Qed.

Lemma append_empty_r (s : string) : s ++ EmptyString = s.
Proof.
  induction s as [|c s IH]; [reflexivity|].
  change (String c (s ++ EmptyString) = String c s). now f_equal.
Qed.

Lemma prefix_other_char (c : Ascii.ascii) (rest : string) :
  c <> c0 -> String.prefix sep (String c rest) = false.
Proof.
  intros Hc. simpl. destruct (Ascii.ascii_dec c0 c) as [->|_]; congruence.
Qed.

Lemma prefix_append (x b : string) : String.prefix x (x ++ b) = true.
Proof.
  induction x as [|c x IH]; simpl; [now destruct b|].
  destruct (Ascii.ascii_dec c c); [exact IH | congruence].
Qed.

Lemma split_skips (x b piece : string) :
  split_from sep (String.length x) piece (x ++ b) = split_from sep 0 piece b.
Proof. induction x as [|c x IH]; simpl; [reflexivity | exact IH]. Qed.

(** A string without the first character of the separator is one piece. *)
Lemma split_without_sep (s piece : string) :
  lacks c0 s -> split_from sep 0 piece s = [piece ++ s].
Proof.
  revert piece. induction s as [|c s IH]; intros piece Hs.
  - simpl. now rewrite append_empty_r.
  - destruct Hs as [Hc Hs]. cbn [split_from].
    rewrite (prefix_other_char c s Hc), (IH _ Hs), append_assoc_char.
    reflexivity.
Qed.

(** The first piece ends at the first separator when nothing before it
    has the separator's first character. *)
Lemma split_at_first_sep (a b piece : string) :
  lacks c0 a ->
  split_from sep 0 piece (a ++ sep ++ b)
  = (piece ++ a) :: split_from sep 0 EmptyString b.
Proof.
  revert piece. induction a as [|c a IH]; intros piece Ha.
  - rewrite append_empty_r.
    change (EmptyString ++ sep ++ b) with (String c0 (sep' ++ b)).
    cbn [split_from].
    change (String c0 (sep' ++ b)) with (sep ++ b).
    rewrite prefix_append.
    cbn [String.length]. rewrite Nat.sub_succ, Nat.sub_0_r.
    now rewrite split_skips.
  - destruct Ha as [Hc Ha].
    change (String c a ++ sep ++ b) with (String c (a ++ sep ++ b)).
    cbn [split_from].
    rewrite (prefix_other_char c _ Hc), (IH _ Ha), append_assoc_char.
    reflexivity.
Qed.

End Splitting.

Lemma lacks_append (c : Ascii.ascii) (a b : string) :
  Analysis.lacks c a -> Analysis.lacks c b -> Analysis.lacks c (a ++ b).
Proof.
  induction a as [|x a IH]; simpl; [tauto|]. intros [Hx Ha] Hb. auto.
Qed.

(** X8. The name under which [log_performance] logs a metric, as it
    appears in a column of the analytics dataframe before the statistic,
    is split back by [analyze_experiment] into the dataset and the
    metric, provided neither contains a space or a colon. *)
Theorem metric_column_splits_back (metric_type metric stat_name : string) :
  Analysis.lacks " "%char metric_type -> Analysis.lacks ":"%char metric_type ->
  Analysis.lacks " "%char metric -> Analysis.lacks ":"%char metric ->
  Analysis.dataset_and_metric (Analysis.metric_column metric_type metric stat_name)
  = [metric_type; metric].
Proof.
  intros Hts Htc Hms Hmc.
  unfold Analysis.dataset_and_metric, Analysis.metric_column, Analysis.py_split.
  rewrite (split_at_first_sep " "%char "- " (metric_type ++ ":" ++ metric) stat_name).
  - cbn [hd]. change (EmptyString ++ metric_type ++ ":" ++ metric)
      with (metric_type ++ ":" ++ metric).
    rewrite (split_at_first_sep ":"%char EmptyString metric_type metric _ Htc).
    rewrite (split_without_sep ":"%char EmptyString metric _ Hmc). reflexivity.
  - apply lacks_append; [exact Hts|]. split; [discriminate | exact Hms].
Qed.

(** The test accuracy, with the statistic [Last]. *)
Lemma metric_column_splits_back_witness :
  Analysis.dataset_and_metric (Analysis.metric_column "Test" "accuracy" "Last")
  = ["Test"; "accuracy"].
Proof.
  apply (metric_column_splits_back "Test" "accuracy" "Last");
    simpl; repeat split; discriminate.
Defined.

(** ** Preparing the analysis *)

Section AnalysisFacts.

Import Analysis.

Variable re_compile : string -> result (string -> bool).
Variable py_str : cell -> string.

Lemma traverse_ok_each {A B} (f : A -> result B) (xs : list A) (ys : list B) :
  traverse f xs = Ok ys ->
  (forall x, In x xs -> exists y, f x = Ok y) /\
  (forall y, In y ys -> exists x, In x xs /\ f x = Ok y).
Proof.
  revert ys. induction xs as [|x xs IH]; intros ys H; simpl in H.
  - injection H as <-. split; intros ? [].
  - apply bind_ok in H as (y & Hy & H).
    apply bind_ok in H as (ys' & Hys & [= <-]).
    destruct (IH _ Hys) as [IH1 IH2]. split.
    + intros x' [<- | Hx']; [exists y; exact Hy | exact (IH1 x' Hx')].
    + intros y' [<- | Hy'].
      * exists x. split; [now left | exact Hy].
      * destruct (IH2 _ Hy') as (x' & Hx' & Hfx'). exists x'.
        split; [now right | exact Hfx'].
Qed.

Lemma find_column_name (name : string) (df : list column) (c : column) :
  find_column name df = Some c -> In c df /\ col_name c = name.
Proof.
  unfold find_column. intros H. apply List.find_some in H as [Hin Heq].
  split; [exact Hin | now apply String.eqb_eq].
Qed.

(** The columns of the local runs are named like columns of the
    analytics dataframe. *)
Lemma local_runs_names (pattern : string) (analytics df : list column) (c : column) :
  local_runs re_compile pattern analytics = Ok df ->
  In c df -> exists c', In c' analytics /\ col_name c' = col_name c.
Proof.
  unfold local_runs.
  destruct (find_column "SourceArn" analytics) as [arn|]; [|discriminate].
  destruct (re_compile pattern) as [search|cls]; [|discriminate].
  intros [= <-] Hc. apply List.filter_In in Hc as [Hc _].
  unfold keep_rows in Hc. apply List.in_map_iff in Hc as (c' & <- & Hc').
  exists c'. split; [exact Hc' | reflexivity].
Qed.

Lemma select_columns_member (names : list string) (df cols : list column)
    (c : column) :
  select_columns names df = Ok cols -> In c cols -> In (col_name c) names.
Proof.
  intros Hsel Hc.
  destruct (proj2 (traverse_ok_each _ _ _ Hsel) c Hc) as (n & Hn & Hfind).
  destruct (find_column n df) as [c'|] eqn:Hf; [|discriminate].
  injection Hfind as ->. apply find_column_name in Hf as [_ <-]. exact Hn.
Qed.

Lemma dropped_column_is_gone (names : list string) (df : list column) (n : string) :
  In n names -> find_column n (drop_columns names df) = None.
Proof.
  intros Hn. destruct (find_column n (drop_columns names df)) as [c|] eqn:Hf;
    [|reflexivity].
  apply find_column_name in Hf as [Hin Hname].
  unfold drop_columns in Hin. apply List.filter_In in Hin as [_ Hkeep].
  apply negb_true_iff in Hkeep.
  assert (Hex : existsb (String.eqb (col_name c)) names = true).
  { apply List.existsb_exists. exists n. split; [exact Hn|].
    now apply String.eqb_eq. }
  congruence.
Qed.

(** Looking up a list of names of which one is no column. *)
Lemma select_columns_missing (names : list string) (df : list column)
    (n : string) :
  In n names -> find_column n df = None ->
  select_columns names df = Raise "KeyError".
Proof.
  intros Hn Hnone. unfold select_columns.
  induction names as [|x names IH]; [destruct Hn|].
  simpl. destruct (find_column x df) as [c|] eqn:Hx; [|reflexivity].
  destruct Hn as [-> | Hn]; [congruence|].
  cbn [Py.bind]. now rewrite (IH Hn).
Qed.

(** X9. [analyze_experiment] gets as far as drawing only when exactly
    one of the parameters is a column of object dtype, whose name then
    is the colour variable. With none, [melt] is given the empty name as
    an id variable; with two or more, the joined columns are dropped and
    then looked up again: either way [KeyError] is raised. *)
Theorem analyze_experiment_needs_one_categorical
    (parameter_names metric_names : list string) (stat_name : string)
    (analytics df df_temp : list column) :
  (forall c, In c analytics -> col_name c <> EmptyString) ->
  local_runs re_compile (re_expr parameter_names metric_names stat_name)
    analytics = Ok df ->
  categorical_parameters parameter_names df = Ok df_temp ->
  (length df_temp <> 1%nat ->
   analyze_experiment re_compile py_str parameter_names metric_names stat_name
     analytics = Raise "KeyError") /\
  (forall out : prepared,
     analyze_experiment re_compile py_str parameter_names metric_names stat_name
       analytics = Ok out ->
     exists c : column, df_temp = [c] /\ cat_col_name out = col_name c).
Proof.
  intros Hnames Hdf Htemp.
  assert (Hraise : length df_temp <> 1%nat ->
            analyze_experiment re_compile py_str parameter_names metric_names
              stat_name analytics = Raise "KeyError").
  { intros Hlen. unfold analyze_experiment. rewrite Hdf. cbn [Py.bind].
    rewrite Htemp. cbn [Py.bind].
    unfold categorical_parameters in Htemp.
    apply bind_ok in Htemp as (cols0 & Hcols0 & [= Hobj]).
    destruct df_temp as [|c1 [|c2 more]]; [| elim Hlen; reflexivity |].
    - cbn [length Nat.ltb Nat.leb map String.concat]. rewrite Hcols0.
      cbn [Py.bind]. unfold melt.
      rewrite (select_columns_missing _ df EmptyString); [reflexivity | |].
      + right. apply List.in_or_app. right. now left.
      + destruct (find_column EmptyString df) as [c'|] eqn:Hf; [|reflexivity].
        apply find_column_name in Hf as [Hin Hname].
        destruct (local_runs_names _ _ _ _ Hdf Hin) as (c'' & Hin'' & Heq).
        elim (Hnames c'' Hin''). congruence.
    - cbn [length Nat.ltb Nat.leb].
      rewrite (select_columns_missing parameter_names _ (col_name c1));
        [reflexivity | |].
      + apply (select_columns_member _ _ _ _ Hcols0).
        assert (H : In c1 (select_dtypes ObjectDtype cols0))
          by (rewrite Hobj; now left).
        unfold select_dtypes in H. now apply List.filter_In in H as [H _].
      + apply dropped_column_is_gone. cbn [map]. now left. }
  split; [exact Hraise|].
  intros out Hrun.
  destruct df_temp as [|c1 [|c2 more]].
  - rewrite Hraise in Hrun by discriminate. discriminate.
  - exists c1. split; [reflexivity|].
    unfold analyze_experiment in Hrun. rewrite Hdf in Hrun. cbn [Py.bind] in Hrun.
    rewrite Htemp in Hrun. cbn [Py.bind] in Hrun.
    apply bind_ok in Hrun as (cols & _ & Hrun).
    apply bind_ok in Hrun as (melted_rows & _ & Hrun).
    apply bind_ok in Hrun as (rows & _ & [= <-]). reflexivity.
  - rewrite Hraise in Hrun by discriminate. discriminate.
Qed.

End AnalysisFacts.

(** Two categorical parameters, [device] and [optimizer], on the toy
    analytics dataframe: its one local run is kept, and the call ends in
    [KeyError]. *)
Lemma analyze_experiment_needs_one_categorical_witness :
  (length [Analysis.mk_column "device" Analysis.ObjectDtype [CStr "cpu"];
           Analysis.mk_column "optimizer" Analysis.ObjectDtype [CStr "adam"]]
   <> 1%nat ->
   Analysis.analyze_experiment
     (compile_expr ["device"; "optimizer"] ["accuracy"; "loss"] "Last")
     str_of_cell ["device"; "optimizer"] ["accuracy"; "loss"] "Last"
     toy_analytics = Raise "KeyError") /\
  (forall out : Analysis.prepared,
     Analysis.analyze_experiment
       (compile_expr ["device"; "optimizer"] ["accuracy"; "loss"] "Last")
       str_of_cell ["device"; "optimizer"] ["accuracy"; "loss"] "Last"
       toy_analytics = Ok out ->
     exists c : Analysis.column,
       [Analysis.mk_column "device" Analysis.ObjectDtype [CStr "cpu"];
        Analysis.mk_column "optimizer" Analysis.ObjectDtype [CStr "adam"]]
       = [c] /\
       Analysis.cat_col_name out = Analysis.col_name c).
Proof.
  apply (analyze_experiment_needs_one_categorical
           (compile_expr ["device"; "optimizer"] ["accuracy"; "loss"] "Last")
           str_of_cell ["device"; "optimizer"] ["accuracy"; "loss"] "Last"
           toy_analytics
           [Analysis.mk_column "DisplayName" Analysis.ObjectDtype [CStr "run-a"];
            Analysis.mk_column "device" Analysis.ObjectDtype [CStr "cpu"];
            Analysis.mk_column "optimizer" Analysis.ObjectDtype [CStr "adam"];
            Analysis.mk_column "Test:accuracy - Last" Analysis.NumberDtype
              [CNum 97]]).
  - intros c Hc. simpl in Hc.
    repeat (destruct Hc as [<- | Hc]; [discriminate|]). destruct Hc.
  - run_cells.
  - run_cells.
Defined.

(** ** Names of the runs of the sweep *)

Section SweepFacts.

Import Sweep Analysis.

Lemma lacks_not_in_middle (c : ascii) (x y : string) :
  ~ lacks c (x ++ String c y).
Proof.
  induction x as [|c' x IH]; simpl.
  - intros [H _]. congruence.
  - intros [_ H]. exact (IH H).
Qed.

(** A string cut at a character in two ways, the right parts free of
    that character, is cut at the same place. *)
Lemma cut_at_last (c : ascii) (a1 a2 d1 d2 : string) :
  lacks c d1 -> lacks c d2 ->
  a1 ++ String c d1 = a2 ++ String c d2 -> a1 = a2 /\ d1 = d2.
Proof.
  intros H1 H2. revert a2.
  induction a1 as [|x a1 IH]; intros [|y a2] Heq; simpl in Heq.
  - injection Heq as ->. auto.
  - injection Heq as <- ->. exfalso. exact (lacks_not_in_middle _ _ _ H1).
  - injection Heq as -> <-. exfalso. exact (lacks_not_in_middle _ _ _ H2).
  - injection Heq as -> Heq. destruct (IH _ Heq) as [-> ->]. auto.
Qed.

Lemma append_cancel_l (a x y : string) : a ++ x = a ++ y -> x = y.
Proof.
  induction a as [|c a IH]; simpl; [auto|]. intros [= H]. auto.
Qed.

Lemma digits_lack_minus (d : uint) :
  lacks "-"%char (NilEmpty.string_of_uint d).
Proof. induction d; simpl; auto; split; auto; discriminate. Qed.

Lemma format_int_lacks_minus (h : Z) :
  0 <= h -> lacks "-"%char (format_int h).
Proof.
  intros Hh. unfold format_int.
  destruct h as [|p|p]; [simpl; split; [discriminate | exact I] | | lia].
  simpl. unfold NilZero.string_of_uint.
  pose proof (digits_lack_minus (Pos.to_uint p)) as Hd.
  destruct (Pos.to_uint p); simpl in *; auto; split; auto; discriminate.
Qed.

Lemma format_int_inj (h1 h2 : Z) : format_int h1 = format_int h2 -> h1 = h2.
Proof.
  unfold format_int. intros Heq. apply DecimalZ.to_int_inj.
  assert (Hok : forall h, Z.to_int h <> Pos Nil /\ Z.to_int h <> Neg Nil).
  { intros [|p|p]; simpl; split; try discriminate;
      intros [= H]; exact (DecimalPos.Unsigned.to_uint_nonnil p H). }
  assert (Hsome : Some (Z.to_int h1) = Some (Z.to_int h2)).
  { rewrite <- (NilZero.isi (Z.to_int h1)), <- (NilZero.isi (Z.to_int h2));
      try apply Hok. now rewrite Heq. }
  now injection Hsome.
Qed.

(** For hidden-channel counts that are not negative, the name of a run
    tells the optimizer and the count it was made from. *)
Lemma run_name_n_inj (run_name_base j1 j2 : string) (h1 h2 : Z) :
  0 <= h1 -> 0 <= h2 ->
  run_name_n run_name_base j1 h1 = run_name_n run_name_base j2 h2 ->
  j1 = j2 /\ h1 = h2.
Proof.
  intros H1 H2 Heq. unfold run_name_n in Heq.
  apply append_cancel_l in Heq.
  change ("-" ++ j1 ++ "-" ++ format_int h1)
    with (String "-" (j1 ++ String "-" (format_int h1))) in Heq.
  change ("-" ++ j2 ++ "-" ++ format_int h2)
    with (String "-" (j2 ++ String "-" (format_int h2))) in Heq.
  injection Heq as Heq.
  destruct (cut_at_last _ _ _ _ _ (format_int_lacks_minus _ H1)
              (format_int_lacks_minus _ H2) Heq) as [-> Hh].
  split; [reflexivity | exact (format_int_inj _ _ Hh)].
Qed.

Lemma run_names_of_jobs (role_ run_name_base : string)
    (hidden_channels : list Z) (optimizer : list string) :
  map run_name (jobs_of role_ run_name_base hidden_channels optimizer)
  = flat_map (fun h => map (fun j => run_name_n run_name_base j h) optimizer)
             hidden_channels.
Proof.
  unfold jobs_of.
  induction hidden_channels as [|h hs IH]; [reflexivity|].
  cbn [flat_map]. rewrite map_app, IH, map_map. reflexivity.
Qed.

(** X10. When no hidden-channel count and no optimizer is listed twice
    and no count is negative, the runs of the sweep all have different
    names: every turn of the loops is tracked as a run of its own. *)
Theorem sweep_run_names_are_distinct (role_ run_name_base : string)
    (hidden_channels : list Z) (optimizer : list string) :
  List.NoDup hidden_channels -> List.NoDup optimizer ->
  Forall (fun h => 0 <= h) hidden_channels ->
  List.NoDup (map run_name (jobs_of role_ run_name_base hidden_channels optimizer)).
Proof.
  intros Hh Ho Hpos. rewrite run_names_of_jobs.
  induction hidden_channels as [|h hs IH]; [constructor|].
  apply List.NoDup_cons_iff in Hh as [Hnew Hh].
  inversion Hpos as [|? ? Hh0 Hpos']; subst.
  cbn [flat_map]. apply List.NoDup_app.
  - clear IH. induction optimizer as [|j js IHj]; [constructor|].
    apply List.NoDup_cons_iff in Ho as [Hj Ho].
    cbn [map]. constructor; [|exact (IHj Ho)].
    intros Hin. apply List.in_map_iff in Hin as (j' & Heq & Hj').
    destruct (run_name_n_inj _ _ _ _ _ Hh0 Hh0 Heq) as [-> _]. contradiction.
  - exact (IH Hh Hpos').
  - intros name Hfirst Hlater.
    apply List.in_map_iff in Hfirst as (j & <- & _).
    apply List.in_flat_map in Hlater as (h' & Hh' & Hin).
    apply List.in_map_iff in Hin as (j' & Heq & _).
    assert (H0 : 0 <= h') by exact (proj1 (List.Forall_forall _ _) Hpos' h' Hh').
    destruct (run_name_n_inj _ _ _ _ _ H0 Hh0 Heq) as [_ ->]. contradiction.
Qed.

End SweepFacts.

(** The notebook's own lists: four runs, four names. *)
Lemma sweep_run_names_are_distinct_witness :
  List.NoDup ["run-example-adam-5"; "run-example-sgd-5";
         "run-example-adam-10"; "run-example-sgd-10"].
Proof.
  apply (sweep_run_names_are_distinct "arn:role" "run-example" [5; 10]
           ["adam"; "sgd"]).
  - repeat constructor; simpl; intuition discriminate.
  - repeat constructor; simpl; intuition discriminate.
  - repeat constructor; lia.
Defined.

(** ** A tie in the first response of the second variant *)

Lemma length_concat_repeat_mul {A} (rows : list A) (n : nat) :
  length (concat (repeat rows n)) = (n * length rows)%nat.
Proof.
  induction n as [|n IH]; simpl; [reflexivity|].
  rewrite length_app, IH. reflexivity.
Qed.

(** X11. For a batch of two or more samples, the evaluation of Variant2
    returns a number only if the selection keeps exactly one row of the
    first response: when two labels tie for the top score (or no row is
    kept), the dataframe has not one row per sample and the accuracy
    cell raises. *)
Theorem variant2_tie_breaks_evaluation
    (p : response) (rest : list response) (sentiment : list cell)
    (rows : list row) :
  new_row_variant2 p = Ok rows ->
  length rows <> 1%nat ->
  rest <> [] ->
  length sentiment = length (p :: rest) ->
  evaluate_variant2 (p :: rest) sentiment = Raise "TypeError".
Proof.
  intros Hrows Hk Hrest Hlen.
  unfold evaluate_variant2, preds_variant2, build_df.
  rewrite (loop_appends new_row_variant2 p rest rows Hrows). cbn [Py.bind app].
  change (length (p :: rest)) with (S (length rest)) in *.
  assert (Hpreds : length (map label (replace_label value_map_variant2
                                        (concat (repeat rows (S (length rest))))))
                   = (S (length rest) * length rows)%nat).
  { unfold replace_label. now rewrite !length_map, length_concat_repeat_mul. }
  assert (Hlabels : length (groundtruth_labels sentiment) = S (length rest)).
  { unfold groundtruth_labels. now rewrite length_map, Hlen. }
  assert (Hrest' : (1 <= length rest)%nat)
    by (destruct rest; [congruence | simpl; lia]).
  apply accuracy_mismatch; rewrite ?Hpreds, ?Hlabels.
  - intros Heq. apply Hk.
    apply (proj1 (Nat.mul_cancel_l _ 1%nat (S (length rest)) ltac:(lia))).
    now rewrite Nat.mul_1_r.
  - intros Heq. apply Hk. now apply Nat.eq_mul_1 in Heq as [_ Heq].
  - lia.
Qed.

(** Two samples, the first response split evenly between its labels. *)
Lemma variant2_tie_breaks_evaluation_witness :
  evaluate_variant2
    [scored_labels [("NEGATIVE", 1 # 2); ("POSITIVE", 1 # 2)];
     scored_labels [("NEGATIVE", 9 # 10); ("POSITIVE", 1 # 10)]]
    [CStr "negative"; CStr "neutral"]
  = Raise "TypeError".
Proof.
  apply (variant2_tie_breaks_evaluation
           (scored_labels [("NEGATIVE", 1 # 2); ("POSITIVE", 1 # 2)])
           [scored_labels [("NEGATIVE", 9 # 10); ("POSITIVE", 1 # 10)]]
           [CStr "negative"; CStr "neutral"]
           [mk_row (CStr "NEGATIVE") (CNum (1 # 2));
            mk_row (CStr "POSITIVE") (CNum (1 # 2))]).
  - reflexivity.
  - discriminate.
  - discriminate.
  - reflexivity.
Defined.

(** ** What a run holds whatever becomes of the training *)

Section TrainingLog.

Context `{T : Torch}.

Import Training.

Lemma continues_refl (s : session) : continues s s.
Proof. exists []. now rewrite app_nil_r. Qed.

Lemma continues_trans (s1 s2 s3 : session) :
  continues s1 s2 -> continues s2 s3 -> continues s1 s3.
Proof.
  intros [l1 H1] [l2 H2]. exists (l1 ++ l2)%list.
  now rewrite H2, H1, app_assoc.
Qed.

Lemma continues_same_log (s s' : session) :
  run_log s' = run_log s -> continues s s'.
Proof. intros H. exists []. now rewrite app_nil_r. Qed.

Lemma log_performance_continues (model : net) (l : loader) (epoch : Z)
    (metric_type : string) (s : session) :
  continues s (log_performance model l epoch metric_type s).1.
Proof.
  destruct (log_performance model l epoch metric_type s) as [s' [m'|cls]] eqn:Hrun.
  - destruct (log_performance_returns _ _ _ _ _ _ _ Hrun)
      as (_ & _ & _ & lv & av & _ & _ & _ & Hlog).
    eexists. exact Hlog.
  - apply continues_same_log. exact (log_performance_raises _ _ _ _ _ _ _ Hrun).
Qed.

Lemma train_epoch_continues (train_loader test_loader : loader) (model : net)
    (epoch : Z) (s : session) :
  continues s (train_epoch train_loader test_loader model epoch s).1.
Proof.
  unfold train_epoch.
  destruct (iterate train_loader (the_rng s)) as [g1 batches].
  destruct (train_batches (set_train model) g1 batches) as [g2 [trained|cls]];
    [|now apply continues_same_log].
  pose proof (log_performance_continues trained train_loader epoch "Train"
                (mk_session g2 (run_log s))) as H1.
  destruct (log_performance trained train_loader epoch "Train" _)
    as [s3 [evaluated|cls]]; cbn [fst] in H1.
  - eapply continues_trans; [|apply log_performance_continues].
    eapply continues_trans; [|exact H1]. now apply continues_same_log.
  - eapply continues_trans; [|exact H1]. now apply continues_same_log.
Qed.

Lemma train_epochs_continues (train_loader test_loader : loader) :
  forall (epochs : list Z) (model : net) (s : session),
    continues s (train_epochs train_loader test_loader model epochs s).1.
Proof.
  induction epochs as [|epoch rest IH]; intros model s; simpl.
  - apply continues_refl.
  - pose proof (train_epoch_continues train_loader test_loader model epoch s) as H1.
    destruct (train_epoch train_loader test_loader model epoch s)
      as [s1 [model1|cls]]; cbn [fst] in H1; [|exact H1].
    eapply continues_trans; [exact H1 | apply IH].
Qed.

Lemma log_confusion_matrices_continues (model : net) :
  forall (batches : list (list (input * Z))) (s : session),
    continues s (log_confusion_matrices model batches s).1.
Proof.
  induction batches as [|batch rest IH]; intros s; simpl.
  - apply continues_refl.
  - destruct (model_call model (the_rng s) (map fst batch)) as [g1 [output|cls]];
      [|now apply continues_same_log].
    destruct (traverse argmax output) as [pred|cls];
      [|now apply continues_same_log].
    eapply continues_trans; [|apply IH].
    unfold log. cbn [run_log]. eexists. reflexivity.
Qed.

(** X12. Whatever becomes of the training, [train_model] has logged the
    device and then the four parameters it was called with, the
    optimizer as the string it was given: a run that fails, or one that
    trains with Adam for want of the exact string [sgd], still records
    them, and nothing logged later removes them. *)
Theorem train_model_logs_parameters_first
    (train_set test_set : dataset) (data_dir optimizer : string)
    (epochs hidden_channels : Z) (s : session) :
  exists later : list log_record,
    run_log (train_model train_set test_set data_dir optimizer epochs
               hidden_channels s).1
    = (run_log s
       ++ [LogParameter "device" (PStr "cpu");
           LogParameters [("data_dir", PStr data_dir);
                          ("optimizer", PStr optimizer);
                          ("epochs", PNum epochs);
                          ("hidden_channels", PNum hidden_channels)]]
       ++ later)%list.
Proof.
  assert (Hgoal : forall s0 : session,
             run_log s0
             = (run_log s
                ++ [LogParameter "device" (PStr "cpu");
                    LogParameters [("data_dir", PStr data_dir);
                                   ("optimizer", PStr optimizer);
                                   ("epochs", PNum epochs);
                                   ("hidden_channels", PNum hidden_channels)]])%list ->
             forall s', continues s0 s' ->
             exists later, run_log s'
                           = (run_log s
                              ++ [LogParameter "device" (PStr "cpu");
                                  LogParameters [("data_dir", PStr data_dir);
                                                 ("optimizer", PStr optimizer);
                                                 ("epochs", PNum epochs);
                                                 ("hidden_channels", PNum hidden_channels)]]
                              ++ later)%list).
  { intros s0 H0 s' [later Hs']. exists later. now rewrite Hs', H0, <- app_assoc. }
  unfold train_model.
  set (s0 := mk_session (manual_seed 42) _).
  assert (H0 : run_log s0
               = (run_log s
                  ++ [LogParameter "device" (PStr "cpu");
                      LogParameters [("data_dir", PStr data_dir);
                                     ("optimizer", PStr optimizer);
                                     ("epochs", PNum epochs);
                                     ("hidden_channels", PNum hidden_channels)]])%list).
  { subst s0. unfold log. cbn [run_log]. now rewrite <- app_assoc. }
  destruct (data_loader train_set 64 true) as [train_loader|cls];
    [|apply (Hgoal s0 H0), continues_refl].
  destruct (data_loader test_set 1000 true) as [test_loader|cls];
    [|apply (Hgoal s0 H0), continues_refl].
  destruct (new_net hidden_channels 5 (5 # 10) (the_rng s0)) as [g model].
  destruct (Experiment.select_optimizer optimizer) as [opt|cls];
    [|apply (Hgoal s0 H0); now apply continues_same_log].
  pose proof (train_epochs_continues train_loader test_loader
                (py_range 1 (epochs + 1)) (with_optimizer model opt)
                (mk_session g (run_log s0))) as Hepochs.
  destruct (train_epochs train_loader test_loader (with_optimizer model opt) _ _)
    as [s1 [trained|cls]]; cbn [fst] in Hepochs.
  - destruct (iterate test_loader (the_rng s1)) as [g1 batches].
    apply (Hgoal s0 H0).
    eapply continues_trans; [|apply log_confusion_matrices_continues].
    eapply continues_trans; [|now apply (continues_same_log s1)].
    eapply continues_trans; [|exact Hepochs]. now apply continues_same_log.
  - apply (Hgoal s0 H0).
    eapply continues_trans; [|exact Hepochs]. now apply continues_same_log.
Qed.

End TrainingLog.

(** ** Kernel sizes the network accepts *)

Section NetShapeFacts.

Import NetShape.










End NetShapeFacts.


(** ** What the first variant's accuracy measures *)

Lemma concat_repeat_single {A} (x : A) (n : nat) :
  concat (repeat [x] n) = repeat x n.
Proof. induction n as [|n IH]; simpl; [reflexivity | now rewrite IH]. Qed.

Lemma correct_count_repeat (c : cell) (labels : list cell) :
  correct_count (repeat c (length labels)) labels = agreeing_labels c labels.
Proof.
  unfold agreeing_labels.
  induction labels as [|l labels IH]; simpl; [reflexivity|].
  rewrite IH. destruct (cell_eqb c l); reflexivity.
Qed.

(** X14. With as many responses as expected labels, and a first
    response whose selection keeps its row, the accuracy computed for
    Variant1 is the number of expected labels that equal the class of
    the first response, divided (as floats) by the number of labels: the
    other responses have no part in it. *)
Theorem variant1_accuracy_is_frequency_of_first_label
    (p : response) (rest : list response) (sentiment : list cell) (r : row) :
  new_row_variant1 p = Ok [r] ->
  length sentiment = length (p :: rest) ->
  evaluate_variant1 (p :: rest) sentiment
  = Ok (quotient
          (Z.of_nat (agreeing_labels
                       (replace_cell value_map_variant1 (label r))
                       (groundtruth_labels sentiment)))
          (Z.of_nat (length sentiment))).
Proof.
  intros Hrow Hlen.
  assert (Hpreds : preds_variant1 (p :: rest)
                   = Ok (repeat (replace_cell value_map_variant1 (label r))
                                (length (groundtruth_labels sentiment)))).
  { unfold preds_variant1, build_df.
    rewrite (loop_appends new_row_variant1 p rest [r] Hrow). cbn [Py.bind app].
    rewrite concat_repeat_single. unfold replace_label, groundtruth_labels.
    rewrite !List.map_repeat, length_map, Hlen. reflexivity. }
  assert (Hne : sentiment <> []) by (destruct sentiment; discriminate).
  rewrite (evaluate_variant1_ratio (p :: rest) sentiment _ Hne
             ltac:(rewrite repeat_length; apply length_map) Hpreds).
  now rewrite correct_count_repeat.
Qed.

(** Three samples, one of them of the class the first response names. *)
Lemma variant1_accuracy_is_frequency_of_first_label_witness :
  evaluate_variant1
    [response_of "LABEL_1" (98 # 100); response_of "LABEL_2" (7 # 10);
     response_of "LABEL_0" (6 # 10)]
    [CStr "positive"; CStr "neutral"; CStr "negative"]
  = Ok (quotient 1 3).
Proof.
  apply (variant1_accuracy_is_frequency_of_first_label
           (response_of "LABEL_1" (98 # 100))
           [response_of "LABEL_2" (7 # 10); response_of "LABEL_0" (6 # 10)]
           [CStr "positive"; CStr "neutral"; CStr "negative"]
           (mk_row (CStr "LABEL_1") (CNum (98 # 100)))).
  - reflexivity.
  - reflexivity.
Defined.
